(** * AudioTranscriptionSummarizer: the Lambda handler of [lambda_function.py]

    A shallow embedding of the handler and of the helpers it calls, followed
    by the properties of the polling loop, of the key derivation, of the event
    parser and of the orchestrator.

    Python values are the JSON-shaped values the handler sees ([value]);
    a Python [str] is a list of Unicode code points ([str]); a [dict] is an
    association list in insertion order.  Side effects (S3, HTTP, sleeping)
    are recorded in a trace, and the outside world answers through the
    functions of a [World] record.  Exceptions are explicit: every effectful
    function returns an [outcome].  Calls to [logger] only format text and are
    left out; the operations inside them that can raise are kept, among them
    the [json.dumps(event)] of the first statement of [lambda_handler]. *)

From Stdlib Require Import List ZArith NArith Lia Bool String Ascii.
From Stdlib Require DecimalString.
Import ListNotations.

Local Open Scope N_scope.

(** ** Python strings *)

Definition codepoint := N.
Definition str := list codepoint.

(** An ASCII literal as a Python string. *)
Definition py (s : string) : str := map N_of_ascii (list_ascii_of_string s).
Arguments py s%_string.

(** A one-character ASCII literal. *)
Definition chr (a : ascii) : codepoint := N_of_ascii a.
Arguments chr a%_char.

Definition str_eqb (a b : str) : bool :=
  if list_eq_dec N.eq_dec a b then true else false.

(** [sep.join(parts)] *)
Fixpoint join (sep : str) (parts : list str) : str :=
  match parts with
  | [] => []
  | [p] => p
  | p :: rest => p ++ sep ++ join sep rest
  end.

(** [c in s] for a one-character [c]. *)
Definition has_char (c : codepoint) (s : str) : bool := existsb (N.eqb c) s.

(** [s.replace(a, b)] for one-character [a] and [b]. *)
Definition replace_char (a b : codepoint) (s : str) : str :=
  map (fun c => if c =? a then b else c) s.

(** [s.startswith(p)] *)
Fixpoint startswith (p s : str) : bool :=
  match p, s with
  | [], _ => true
  | _ :: _, [] => false
  | x :: p', y :: s' => (x =? y) && startswith p' s'
  end.

(** [needle in s] for strings: the substring test. *)
Fixpoint contains_substring (needle s : str) : bool :=
  startswith needle s ||
  match s with
  | [] => false
  | _ :: s' => contains_substring needle s'
  end.

(** [str(n)] for an [int]. *)
Definition str_of_int (z : Z) : str := py (DecimalString.NilZero.string_of_int (Z.to_int z)).

Definition hex_digit (d : N) : codepoint := if d <? 10 then 48 + d else 87 + d.

(** Lower-case hexadecimal, [width] digits (the format [%0<width>x]). *)
Fixpoint hex (width : nat) (n : N) : str :=
  match width with
  | O => []
  | S w => hex w (n / 16) ++ [hex_digit (n mod 16)]
  end.

(** [str.isspace] for one character: the code points CPython's
    [_PyUnicode_IsWhitespace] accepts. *)
Definition isspace (c : codepoint) : bool :=
  ((9 <=? c) && (c <=? 13)) || ((28 <=? c) && (c <=? 32)) ||
  (c =? 133) || (c =? 160) || (c =? 5760) ||
  ((8192 <=? c) && (c <=? 8202)) || (c =? 8232) || (c =? 8233) ||
  (c =? 8239) || (c =? 8287) || (c =? 12288).

Fixpoint lstrip (s : str) : str :=
  match s with
  | c :: s' => if isspace c then lstrip s' else s
  | [] => []
  end.

Definition rstrip (s : str) : str := rev (lstrip (rev s)).

(** [s.strip()] *)
Definition strip (s : str) : str := rstrip (lstrip s).

(** [s.split(sep)] for a one-character separator: never empty. *)
Fixpoint split (sep : codepoint) (s : str) : list str :=
  match s with
  | [] => [[]]
  | c :: s' =>
      if c =? sep then [] :: split sep s'
      else match split sep s' with
           | p :: ps => (c :: p) :: ps
           | [] => [[c]]
           end
  end.

(** The text before the last [sep] of [s] and the text after it, when [s]
    has a [sep]. *)
Fixpoint rpartition (sep : codepoint) (s : str) : option (str * str) :=
  match s with
  | [] => None
  | c :: s' =>
      match rpartition sep s' with
      | Some (before, after) => Some (c :: before, after)
      | None => if c =? sep then Some ([], s') else None
      end
  end.

(** [s.rsplit(sep, 1)] for a one-character separator. *)
Definition rsplit1 (sep : codepoint) (s : str) : list str :=
  match rpartition sep s with
  | Some (before, after) => [before; after]
  | None => [s]
  end.

(** ** Python values *)

Set Warnings "-register-all".

Inductive pyfloat :=
| FFinite (text : str)   (* a finite float, carried as its [repr] text *)
| FNan
| FInf
| FNegInf.

Inductive value :=
| VNone
| VBool (b : bool)
| VInt (z : Z)
| VFloat (f : pyfloat)
| VStr (s : str)
| VList (l : list value)
| VDict (d : list (str * value)).

Definition dict := list (str * value).

Fixpoint dict_lookup (k : str) (d : dict) : option value :=
  match d with
  | [] => None
  | (k', v) :: d' => if str_eqb k k' then Some v else dict_lookup k d'
  end.

(** [k in d] *)
Definition dict_has (k : str) (d : dict) : bool :=
  match dict_lookup k d with Some _ => true | None => false end.

(** [type(v).__name__] *)
Definition type_name (v : value) : str :=
  match v with
  | VNone => py "NoneType"
  | VBool _ => py "bool"
  | VInt _ => py "int"
  | VFloat _ => py "float"
  | VStr _ => py "str"
  | VList _ => py "list"
  | VDict _ => py "dict"
  end.

(** [v == s] for a string [s]: only the same string is equal to it. *)
Definition eq_str (v : value) (s : str) : bool :=
  match v with
  | VStr t => str_eqb t s
  | _ => false
  end.

(** *** [json.dumps] with its defaults ([ensure_ascii], separators
    [", "] and [": "], [allow_nan]) *)

Definition json_escape_char (c : codepoint) : str :=
  if c =? 34 then [92; 34]
  else if c =? 92 then py "\\"
  else if c =? 10 then py "\n"
  else if c =? 13 then py "\r"
  else if c =? 9 then py "\t"
  else if c =? 12 then py "\f"
  else if c =? 8 then py "\b"
  else if (32 <=? c) && (c <=? 126) then [c]
  else if c <? 65536 then py "\u" ++ hex 4 c
  else
    let n := c - 65536 in
    py "\u" ++ hex 4 (N.lor 55296 (N.land (N.shiftr n 10) 1023)) ++
    py "\u" ++ hex 4 (N.lor 56320 (N.land n 1023)).

Definition json_string (s : str) : str :=
  [34] ++ flat_map json_escape_char s ++ [34].

Definition json_float (f : pyfloat) : str :=
  match f with
  | FFinite text => text
  | FNan => py "NaN"
  | FInf => py "Infinity"
  | FNegInf => py "-Infinity"
  end.

Fixpoint json_dumps (v : value) : str :=
  match v with
  | VNone => py "null"
  | VBool true => py "true"
  | VBool false => py "false"
  | VInt z => str_of_int z
  | VFloat f => json_float f
  | VStr s => json_string s
  | VList l => py "[" ++ join (py ", ") (map json_dumps l) ++ py "]"
  | VDict d =>
      py "{" ++
      join (py ", ")
        (map (fun kv => json_string (fst kv) ++ py ": " ++ json_dumps (snd kv)) d) ++
      py "}"
  end.

(** How deep the lists and objects of a value are nested; [json.dumps] uses
    one level of the interpreter's recursion for each. *)
Fixpoint json_depth (v : value) : nat :=
  match v with
  | VList l => S (fold_right (fun x m => Nat.max (json_depth x) m) 0%nat l)
  | VDict d => S (fold_right (fun kv m => Nat.max (json_depth (snd kv)) m) 0%nat d)
  | _ => 0%nat
  end.

(** *** [repr] and [str] *)

Section Repr.

(** [str.isprintable] of one character, as given by the Unicode character
    database of the interpreter; [repr] consults it for non-ASCII text. *)
Variable isprintable : codepoint -> bool.

Definition repr_char (quote c : codepoint) : str :=
  if (c =? quote) || (c =? 92) then [92; c]
  else if c =? 9 then py "\t"
  else if c =? 10 then py "\n"
  else if c =? 13 then py "\r"
  else if (c <? 32) || (c =? 127) then py "\x" ++ hex 2 c
  else if c <? 127 then [c]
  else if isprintable c then [c]
  else if c <? 256 then py "\x" ++ hex 2 c
  else if c <? 65536 then py "\u" ++ hex 4 c
  else py "\U" ++ hex 8 c.

(** [repr(s)] for a string: single quotes unless the text has a single
    quote and no double quote. *)
Definition repr_str (s : str) : str :=
  let quote := if has_char 39 s && negb (has_char 34 s) then 34 else 39 in
  [quote] ++ flat_map (repr_char quote) s ++ [quote].

Definition repr_float (f : pyfloat) : str :=
  match f with
  | FFinite text => text
  | FNan => py "nan"
  | FInf => py "inf"
  | FNegInf => py "-inf"
  end.

Fixpoint repr (v : value) : str :=
  match v with
  | VNone => py "None"
  | VBool true => py "True"
  | VBool false => py "False"
  | VInt z => str_of_int z
  | VFloat f => repr_float f
  | VStr s => repr_str s
  | VList l => py "[" ++ join (py ", ") (map repr l) ++ py "]"
  | VDict d =>
      py "{" ++
      join (py ", ") (map (fun kv => repr_str (fst kv) ++ py ": " ++ repr (snd kv)) d) ++
      py "}"
  end.

(** [str(v)], which is what an f-string field [{v}] inserts. *)
Definition py_str (v : value) : str :=
  match v with
  | VStr s => s
  | _ => repr v
  end.

End Repr.

(** ** [urllib.parse.unquote_plus] *)

(** [bytes.decode('utf-8', 'replace')]: every maximal ill-formed byte
    sequence becomes one U+FFFD. *)
Definition is_cont (b : N) : bool := (128 <=? b) && (b <=? 191).

(** The values the byte after the lead byte [b0] of a three- or four-byte
    sequence may take. *)
Definition second_ok (b0 b1 : N) : bool :=
  if b0 =? 224 then (160 <=? b1) && (b1 <=? 191)
  else if b0 =? 237 then (128 <=? b1) && (b1 <=? 159)
  else if b0 =? 240 then (144 <=? b1) && (b1 <=? 191)
  else if b0 =? 244 then (128 <=? b1) && (b1 <=? 143)
  else is_cont b1.

Definition REPLACEMENT : codepoint := 65533.

Fixpoint utf8_decode_replace (bs : list N) : str :=
  match bs with
  | [] => []
  | b0 :: t0 =>
      if b0 <? 128 then b0 :: utf8_decode_replace t0
      else if (b0 <? 194) || (244 <? b0) then REPLACEMENT :: utf8_decode_replace t0
      else
        match t0 with
        | [] => [REPLACEMENT]
        | b1 :: t1 =>
            if b0 <? 224 then
              if is_cont b1
              then ((b0 - 192) * 64 + (b1 - 128)) :: utf8_decode_replace t1
              else REPLACEMENT :: utf8_decode_replace t0
            else if negb (second_ok b0 b1) then REPLACEMENT :: utf8_decode_replace t0
            else
              match t1 with
              | [] => [REPLACEMENT]
              | b2 :: t2 =>
                  if negb (is_cont b2) then REPLACEMENT :: utf8_decode_replace t1
                  else if b0 <? 240 then
                    ((b0 - 224) * 4096 + (b1 - 128) * 64 + (b2 - 128))
                      :: utf8_decode_replace t2
                  else
                    match t2 with
                    | [] => [REPLACEMENT]
                    | b3 :: t3 =>
                        if is_cont b3
                        then ((b0 - 240) * 262144 + (b1 - 128) * 4096 +
                              (b2 - 128) * 64 + (b3 - 128))
                               :: utf8_decode_replace t3
                        else REPLACEMENT :: utf8_decode_replace t2
                    end
              end
        end
  end.

Definition is_hexdig (c : codepoint) : bool :=
  ((48 <=? c) && (c <=? 57)) || ((65 <=? c) && (c <=? 70)) || ((97 <=? c) && (c <=? 102)).

Definition hex_value (c : codepoint) : N :=
  if c <=? 57 then c - 48 else if c <=? 70 then c - 55 else c - 87.

(** One piece after a ['%']: two hex digits give a byte, anything else keeps
    the ['%']. *)
Definition unquote_item (item : str) : list N :=
  match item with
  | a :: b :: rest =>
      if is_hexdig a && is_hexdig b then (16 * hex_value a + hex_value b) :: rest
      else chr "%" :: item
  | _ => chr "%" :: item
  end.

(** [unquote_to_bytes] on ASCII text. *)
Definition unquote_to_bytes (s : str) : list N :=
  match split (chr "%") s with
  | [] => s
  | first :: items => first ++ flat_map unquote_item items
  end.

(** The loop of [unquote]: every maximal run of ASCII characters ([run], so
    far) is percent-decoded and read as UTF-8, the other characters are kept. *)
Fixpoint unquote_runs (run s : str) : str :=
  match s with
  | [] => utf8_decode_replace (unquote_to_bytes run)
  | c :: s' =>
      if c <? 128 then unquote_runs (run ++ [c]) s'
      else utf8_decode_replace (unquote_to_bytes run) ++ c :: unquote_runs [] s'
  end.

Definition unquote (s : str) : str :=
  if has_char (chr "%") s then unquote_runs [] s else s.

Definition unquote_plus (s : str) : str := unquote (replace_char (chr "+") (chr " ") s).

(** ** Exceptions and outcomes *)

Inductive exc_class :=
| Exception
| ValueError
| UnicodeEncodeError      (* a [ValueError] *)
| KeyError
| IndexError
| TypeError
| AttributeError
| TimeoutError
| ClientError             (* [botocore.exceptions.ClientError] *)
| RequestException        (* [requests.exceptions.RequestException] and below *)
| OtherError (name : str) (* any other [Exception] raised by a library call *).

(** An exception: its class and its [str(e)]. *)
Record exn := Exc { exc_type : exc_class; exc_text : str }.

(** [RecursionError], raised when the recursion limit is reached. *)
Definition RecursionError : exc_class := OtherError (py "RecursionError").

(** [isinstance(e, c)] for the classes named in [except] clauses. *)
Definition isinstance (e : exn) (c : exc_class) : bool :=
  match c, exc_type e with
  | Exception, _ => true
  | ValueError, (ValueError | UnicodeEncodeError) => true
  | UnicodeEncodeError, UnicodeEncodeError => true
  | KeyError, KeyError => true
  | IndexError, IndexError => true
  | TypeError, TypeError => true
  | AttributeError, AttributeError => true
  | TimeoutError, TimeoutError => true
  | ClientError, ClientError => true
  | RequestException, RequestException => true
  | _, _ => false
  end.

Inductive outcome (A : Type) :=
| Returned (a : A)
| Raised (e : exn).
Arguments Returned {A} a.
Arguments Raised {A} e.

(** ** Effects *)

Local Open Scope Z_scope.

Inductive event :=
| S3GetObject (bucket : value) (key : str)
| S3PutObject (bucket key body content_type : str)
| HttpPost (url : str) (headers payload : value)
| HttpGet (url : str) (headers : value)
| Sleep (secs : Z).

Definition trace := list event.

(** What the services answer.  A failed call is an exception of the client
    library.  [requests_get n] answers the [n]-th status request of the
    invocation, counting from [0]; an answer is the parsed JSON body. *)
Record World := {
  s3_get_object : value -> str -> outcome str;
  s3_put_object : str -> str -> str -> str -> outcome unit;
  requests_post : str -> value -> value -> outcome value;
  requests_get : nat -> str -> value -> outcome value
}.

(** The module-level settings read from the environment. *)
Record Config := {
  RUNPOD_API_KEY : option str;
  RUNPOD_API_ENDPOINT : option str;
  OUTPUT_BUCKET : str;
  MAX_POLLING_ATTEMPTS : Z;
  POLLING_INTERVAL : Z
}.

(** A computation reads the trace so far and extends it. *)
Definition Eff (A : Type) := trace -> outcome A * trace.

Definition ret {A} (a : A) : Eff A := fun tr => (Returned a, tr).

Definition raise {A} (c : exc_class) (text : str) : Eff A :=
  fun tr => (Raised (Exc c text), tr).

Definition reraise {A} (e : exn) : Eff A := fun tr => (Raised e, tr).

Definition bind {A B} (m : Eff A) (k : A -> Eff B) : Eff B :=
  fun tr =>
    match m tr with
    | (Returned a, tr') => k a tr'
    | (Raised e, tr') => (Raised e, tr')
    end.

(** [try: m  except c as e: handler e] *)
Definition try_except {A} (m : Eff A) (c : list exc_class) (handler : exn -> Eff A) : Eff A :=
  fun tr =>
    match m tr with
    | (Returned a, tr') => (Returned a, tr')
    | (Raised e, tr') =>
        if existsb (isinstance e) c then handler e tr' else (Raised e, tr')
    end.

(** A pure operation that may raise. *)
Definition lift {A} (o : outcome A) : Eff A := fun tr => (o, tr).

Declare Scope eff_scope.
Delimit Scope eff_scope with eff.
Notation "x <- m ;; k" := (bind m (fun x => k))
  (at level 61, m at next level, right associativity) : eff_scope.
Notation "m ;; k" := (bind m (fun _ => k))
  (at level 61, right associativity) : eff_scope.
Local Open Scope eff_scope.

Definition count_gets (tr : trace) : nat :=
  List.length (filter (fun ev => match ev with HttpGet _ _ => true | _ => false end) tr).

Definition count_sleeps (tr : trace) : nat :=
  List.length (filter (fun ev => match ev with Sleep _ => true | _ => false end) tr).

(** No request to the job API. *)
Definition no_job_api_call (tr : trace) : bool :=
  forallb (fun ev => match ev with HttpPost _ _ _ | HttpGet _ _ => false | _ => true end) tr.

(** ** Built-in operations on values *)

Inductive subscript :=
| Key (k : str)
| Index (i : Z).

(** [l[i]] on a sequence, negative [i] counting from the end. *)
Definition seq_index {A} (l : list A) (i : Z) : option A :=
  let n := Z.of_nat (List.length l) in
  if (0 <=? i) && (i <? n) then nth_error l (Z.to_nat i)
  else if (i <? 0) && (0 <=? n + i) then nth_error l (Z.to_nat (n + i))
  else None.

Definition NEWLINE : str := [10%N].

Section Handler.

Variable isprintable : codepoint -> bool.
Variable cfg : Config.
Variable world : World.

(** How many levels of nesting, beyond the first, [json.dumps] can encode
    where [lambda_handler] starts before it reaches the recursion limit of
    the interpreter. *)
Variable spare_depth : nat.

Definition no_attribute {A} (obj : value) (attr : string) : outcome A :=
  Raised (Exc AttributeError
            (py "'" ++ type_name obj ++ py "' object has no attribute '" ++ py attr ++ py "'")).

(** [obj[ix]] *)
Definition getitem (obj : value) (ix : subscript) : outcome value :=
  match obj, ix with
  | VDict d, Key k =>
      match dict_lookup k d with
      | Some v => Returned v
      | None => Raised (Exc KeyError (repr_str isprintable k))
      end
  | VDict d, Index i => Raised (Exc KeyError (str_of_int i))
  | VList l, Index i =>
      match seq_index l i with
      | Some v => Returned v
      | None => Raised (Exc IndexError (py "list index out of range"))
      end
  | VList _, Key _ =>
      Raised (Exc TypeError (py "list indices must be integers or slices, not str"))
  | VStr s, Index i =>
      match seq_index s i with
      | Some c => Returned (VStr [c])
      | None => Raised (Exc IndexError (py "string index out of range"))
      end
  | VStr _, Key _ =>
      Raised (Exc TypeError (py "string indices must be integers, not 'str'"))
  | _, _ =>
      Raised (Exc TypeError (py "'" ++ type_name obj ++ py "' object is not subscriptable"))
  end.

(** [obj.get(k, default)] *)
Definition get_method (obj : value) (k : str) (default : value) : outcome value :=
  match obj with
  | VDict d =>
      match dict_lookup k d with
      | Some v => Returned v
      | None => Returned default
      end
  | _ => no_attribute obj "get"
  end.

(** [needle in obj] for a string [needle] *)
Definition py_in (needle : str) (obj : value) : outcome bool :=
  match obj with
  | VDict d => Returned (dict_has needle d)
  | VList l => Returned (existsb (fun x => eq_str x needle) l)
  | VStr s => Returned (contains_substring needle s)
  | _ =>
      Raised (Exc TypeError (py "argument of type '" ++ type_name obj ++ py "' is not iterable"))
  end.

(** [len(obj)] *)
Definition py_len (obj : value) : outcome Z :=
  match obj with
  | VStr s => Returned (Z.of_nat (List.length s))
  | VList l => Returned (Z.of_nat (List.length l))
  | VDict d => Returned (Z.of_nat (List.length d))
  | _ => Raised (Exc TypeError (py "object of type '" ++ type_name obj ++ py "' has no len()"))
  end.

Definition is_surrogate (c : codepoint) : bool := ((55296 <=? c) && (c <=? 57343))%N.

(** The surrogates a text starts with. *)
Fixpoint leading_surrogates (s : str) : str :=
  match s with
  | c :: s' => if is_surrogate c then c :: leading_surrogates s' else []
  | [] => []
  end.

(** The first surrogate of a text: its position, the character, and how
    many surrogates follow it directly. *)
Fixpoint find_surrogate (pos : nat) (s : str) : option (nat * codepoint * nat) :=
  match s with
  | [] => None
  | c :: s' =>
      if is_surrogate c
      then Some (pos, c, List.length (leading_surrogates s'))
      else find_surrogate (S pos) s'
  end.

(** [obj.encode('utf-8')]: the text itself stands for its encoding; lone
    surrogates cannot be encoded. *)
Definition encode_utf8 (obj : value) : outcome str :=
  match obj with
  | VStr s =>
      match find_surrogate 0 s with
      | None => Returned s
      | Some (pos, c, more) =>
          Raised (Exc UnicodeEncodeError
            (py "'utf-8' codec can't encode " ++
             match more with
             | O => py "character '\u" ++ hex 4 c ++ py "' in position " ++
                    str_of_int (Z.of_nat pos)
             | S _ => py "characters in position " ++ str_of_int (Z.of_nat pos) ++
                      py "-" ++ str_of_int (Z.of_nat (pos + more))
             end ++ py ": surrogates not allowed"))
      end
  | _ => no_attribute obj "encode"
  end.

(** [urllib.parse.unquote_plus(obj)] *)
Definition py_unquote_plus (obj : value) : outcome str :=
  match obj with
  | VStr s => Returned (unquote_plus s)
  | _ => no_attribute obj "replace"
  end.

(** An environment setting inside an f-string. *)
Definition setting_str (o : option str) : str :=
  match o with
  | Some s => s
  | None => py "None"
  end.

(** [not o] for an environment setting. *)
Definition unset (o : option str) : bool :=
  match o with
  | Some (_ :: _) => false
  | _ => true
  end.

(** *** The calls that leave the process *)

Definition s3_client_get_object (bucket : value) (key : str) : Eff str :=
  fun tr => (s3_get_object world bucket key, tr ++ [S3GetObject bucket key]).

Definition s3_client_put_object (body bucket key content_type : str) : Eff unit :=
  fun tr => (s3_put_object world bucket key body content_type,
             tr ++ [S3PutObject bucket key body content_type]).

(** [requests.post(url, headers=headers, json=payload)], then
    [raise_for_status()] and [json()]. *)
Definition requests_post_json (url : str) (headers payload : value) : Eff value :=
  fun tr => (requests_post world url headers payload, tr ++ [HttpPost url headers payload]).

(** [requests.get(url, headers=headers)], then [raise_for_status()] and
    [json()]. *)
Definition requests_get_json (url : str) (headers : value) : Eff value :=
  fun tr => (requests_get world (count_gets tr) url headers, tr ++ [HttpGet url headers]).

(** [time.sleep(secs)] *)
Definition time_sleep (secs : Z) : Eff unit :=
  fun tr =>
    if secs <? 0
    then (Raised (Exc ValueError (py "sleep length must be non-negative")), tr)
    else (Returned tt, tr ++ [Sleep secs]).

(** *** [parse_s3_event] *)

Definition parse_s3_event (event : value) : Eff (value * str) :=
  try_except
    (records <- lift (getitem event (Key (py "Records")));;
     first <- lift (getitem records (Index 0));;
     s3_record <- lift (getitem first (Key (py "s3")));;
     bucket <- lift (getitem s3_record (Key (py "bucket")));;
     bucket_name <- lift (getitem bucket (Key (py "name")));;
     object <- lift (getitem s3_record (Key (py "object")));;
     key <- lift (getitem object (Key (py "key")));;
     object_key <- lift (py_unquote_plus key);;
     ret (bucket_name, object_key))
    [KeyError; IndexError]
    (fun e => raise ValueError (py "Invalid S3 event format: " ++ exc_text e)).

(** *** [get_transcript_from_s3] *)

Definition get_transcript_from_s3 (bucket : value) (key : str) : Eff str :=
  try_except (s3_client_get_object bucket key) [ClientError] (fun e => reraise e).

(** *** [submit_job_to_runpod] *)

Definition auth_headers : value :=
  VDict [(py "Authorization", VStr (py "Bearer " ++ setting_str (RUNPOD_API_KEY cfg)));
         (py "Content-Type", VStr (py "application/json"))].

Definition summary_prompt (text : str) : str :=
  py "Your task is to create a comprehensive summary of the following transcription. "
    ++ NEWLINE ++
  py "    The summary should be detailed and approximately 4,000 words in length."
    ++ NEWLINE ++
  py "    " ++ NEWLINE ++
  py "    Transcription:" ++ NEWLINE ++
  py "    " ++ text ++ NEWLINE ++
  py "    " ++ NEWLINE ++
  py "    Summary:".

Definition submit_job_to_runpod (text : str) : Eff value :=
  if unset (RUNPOD_API_KEY cfg) then raise ValueError (py "Runpod API key is not set.")
  else if unset (RUNPOD_API_ENDPOINT cfg)
  then raise ValueError (py "Runpod API endpoint is not set.")
  else
    let headers := auth_headers in
    let prompt := summary_prompt text in
    let payload :=
      VDict [(py "input",
              VDict [(py "prompt", VStr prompt);
                     (py "max_tokens", VInt 6000);
                     (py "temperature", VFloat (FFinite (py "0.5")));
                     (py "top_p", VFloat (FFinite (py "0.9")))])] in
    try_except
      (let run_url := setting_str (RUNPOD_API_ENDPOINT cfg) ++ py "/run" in
       result <- requests_post_json run_url headers payload;;
       present <- lift (py_in (py "id") result);;
       if negb present
       then raise ValueError (py "No job ID returned from Runpod: " ++ py_str isprintable result)
       else lift (getitem result (Key (py "id"))))
      [RequestException]
      (fun e => reraise e).

(** *** [poll_runpod_job] *)

(** [for attempt in range(n): body] followed by [orelse]; a [body] that
    yields [Some v] has executed [return v]. *)
Fixpoint for_range {A} (attempt n : nat) (body : nat -> Eff (option A)) (orelse : Eff A)
  : Eff A :=
  match n with
  | O => orelse
  | S n' =>
      r <- body attempt;;
      match r with
      | Some v => ret v
      | None => for_range (S attempt) n' body orelse
      end
  end.

Definition status_url (job_id : value) : str :=
  setting_str (RUNPOD_API_ENDPOINT cfg) ++ py "/status/" ++ py_str isprintable job_id.

(** The statements of the [try] block of one attempt. *)
Definition poll_try (job_id headers : value) : Eff (option value) :=
  result <- requests_get_json (status_url job_id) headers;;
  status <- lift (get_method result (py "status") (VStr (py "")));;
  if eq_str status (py "COMPLETED") then
    output <- lift (get_method result (py "output") (VDict []));;
    has_text <- match output with
                | VDict _ => lift (py_in (py "text") output)
                | _ => ret false
                end;;
    if has_text then
      v <- lift (getitem output (Key (py "text")));; ret (Some v)
    else match output with
         | VStr _ => ret (Some output)
         | _ =>
             v <- lift (get_method output (py "text") (VStr (json_dumps output)));;
             ret (Some v)
         end
  else if eq_str status (py "FAILED") then
    error_message <- lift (get_method result (py "error") (VStr (py "Unknown error")));;
    raise Exception (py "Runpod job failed: " ++ py_str isprintable error_message)
  else
    time_sleep (POLLING_INTERVAL cfg);;
    ret None.

Definition poll_attempt (job_id headers : value) (attempt : nat) : Eff (option value) :=
  try_except (poll_try job_id headers) [RequestException]
    (fun e => time_sleep (POLLING_INTERVAL cfg);; ret None).

Definition polling_timed_out (job_id : value) : exn :=
  Exc TimeoutError
    (py "Polling for Runpod job " ++ py_str isprintable job_id ++ py " timed out after " ++
     str_of_int (MAX_POLLING_ATTEMPTS cfg) ++ py " attempts.").

Definition poll_runpod_job (job_id : value) : Eff value :=
  let headers := auth_headers in
  for_range 0 (Z.to_nat (MAX_POLLING_ATTEMPTS cfg))
    (poll_attempt job_id headers)
    (reraise (polling_timed_out job_id)).

(** *** [generate_output_key] *)

Definition generate_output_key (input_key : str) : str :=
  let base_name :=
    if has_char (chr ".") input_key then hd [] (rsplit1 (chr ".") input_key) else input_key in
  py "summaries/" ++ base_name ++ py "_summary.txt".

(** *** [upload_summary_to_s3] *)

Definition upload_summary_to_s3 (summary : value) (bucket key : str) : Eff unit :=
  try_except
    (body <- lift (encode_utf8 summary);;
     s3_client_put_object body bucket key (py "text/plain"))
    [ClientError]
    (fun e => reraise e).

(** *** [lambda_handler] *)

Definition s3_uri (bucket key : str) : str := py "s3://" ++ bucket ++ py "/" ++ key.

Definition success_envelope (bucket_name : value) (object_key output_key : str) : value :=
  VDict [(py "statusCode", VInt 200);
         (py "body",
          VStr (json_dumps
            (VDict [(py "message", VStr (py "Summary generated successfully"));
                    (py "input_file",
                     VStr (s3_uri (py_str isprintable bucket_name) object_key));
                    (py "output_file",
                     VStr (s3_uri (OUTPUT_BUCKET cfg) output_key))])))].

Definition error_envelope (e : exn) : value :=
  VDict [(py "statusCode", VInt 500);
         (py "body",
          VStr (json_dumps
            (VDict [(py "message", VStr (py "Error processing file"));
                    (py "error", VStr (exc_text e))])))].

(** The statements of the [try] block of [lambda_handler]. *)
Definition handler_try (event : value) : Eff value :=
  parsed <- parse_s3_event event;;
  let bucket_name := fst parsed in
  let object_key := snd parsed in
  transcript_text <- get_transcript_from_s3 bucket_name object_key;;
  match strip transcript_text with
  | [] => raise ValueError (py "Transcript file is empty.")
  | _ :: _ =>
      job_id <- submit_job_to_runpod transcript_text;;
      summary <- poll_runpod_job job_id;;
      lift (py_len summary);;
      let output_key := generate_output_key object_key in
      upload_summary_to_s3 summary (OUTPUT_BUCKET cfg) output_key;;
      ret (success_envelope bucket_name object_key output_key)
  end.

(** [json.dumps(obj)] in the frame of [lambda_handler]: a value nested too
    deep for the recursion limit raises [RecursionError].  The event comes
    from the runtime, which decoded it higher up the stack, so that it can be
    too deep; the objects of the envelopes are flat, and the answers of the
    job API were decoded by [response.json()] below this frame, so that
    [json_dumps] stands for the call there. *)
Definition py_json_dumps (obj : value) : outcome str :=
  if (json_depth obj <=? S spare_depth)%nat
  then Returned (json_dumps obj)
  else Raised (Exc RecursionError
                 (py "maximum recursion depth exceeded while encoding a JSON object")).

(** The first statement of [lambda_handler], outside the [try], logs
    [json.dumps(event)]. *)
Definition lambda_handler (event : value) : Eff value :=
  lift (py_json_dumps event);;
  try_except (handler_try event) [Exception] (fun e => ret (error_envelope e)).

End Handler.

(** ** Vocabulary of the statements *)

(** [result.get("status", "")] of a status answer. *)
Definition status_of (d : dict) : value :=
  match dict_lookup (py "status") d with
  | Some v => v
  | None => VStr (py "")
  end.

(** The answer is a JSON object whose status is neither [COMPLETED] nor
    [FAILED]. *)
Definition non_terminal (r : outcome value) : bool :=
  match r with
  | Returned (VDict d) =>
      negb (eq_str (status_of d) (py "COMPLETED")) && negb (eq_str (status_of d) (py "FAILED"))
  | _ => false
  end.

(** The status request failed with a [RequestException]. *)
Definition transport_failure (r : outcome value) : bool :=
  match r with
  | Raised e => isinstance e RequestException
  | Returned _ => false
  end.

(** The answer to the [n]-th status request for [job_id]. *)
Definition status_reply (isprintable : codepoint -> bool) (cfg : Config) (world : World)
    (job_id : value) (n : nat) : outcome value :=
  requests_get world n (status_url isprintable cfg job_id) (auth_headers cfg).

(** [result.get("output", {})] of a status answer. *)
Definition output_of (d : dict) : value :=
  match dict_lookup (py "output") d with
  | Some o => o
  | None => VDict []
  end.

(** What a [COMPLETED] answer yields, by the shape of its output. *)
Definition completed_result (output : value) : outcome value :=
  match output with
  | VDict o =>
      match dict_lookup (py "text") o with
      | Some x => Returned x
      | None => Returned (VStr (json_dumps output))
      end
  | VStr _ => Returned output
  | _ => no_attribute output "get"
  end.

(** [result.get("error", "Unknown error")] of a status answer. *)
Definition error_detail (d : dict) : value :=
  match dict_lookup (py "error") d with
  | Some detail => detail
  | None => VStr (py "Unknown error")
  end.

(** The exception of a failed job, by its error detail. *)
Definition job_failed (isprintable : codepoint -> bool) (detail : value) : exn :=
  Exc Exception (py "Runpod job failed: " ++ py_str isprintable detail).

(** [k] attempts that each made one status request and then slept. *)
Fixpoint polling_rounds (url : str) (headers : value) (secs : Z) (k : nat) : trace :=
  match k with
  | O => []
  | S k' => HttpGet url headers :: Sleep secs :: polling_rounds url headers secs k'
  end.

(** *** The stages of one invocation *)

Section Stages.

Variable isprintable : codepoint -> bool.
Variable cfg : Config.
Variable world : World.
Variable event : value.
Variable tr : trace.

(** Every stage succeeds: the event names [bucket] and [key], and the
    invocation ends with the trace [tr']. *)
Inductive stages_succeed (bucket : value) (key : str) (tr' : trace) : Prop :=
| all_stages text tr1 job_id tr2 summary tr3 n :
    parse_s3_event isprintable event tr = (Returned (bucket, key), tr) ->
    get_transcript_from_s3 world bucket key tr = (Returned text, tr1) ->
    strip text <> [] ->
    submit_job_to_runpod isprintable cfg world text tr1 = (Returned job_id, tr2) ->
    poll_runpod_job isprintable cfg world job_id tr2 = (Returned summary, tr3) ->
    py_len summary = Returned n ->
    upload_summary_to_s3 world summary (OUTPUT_BUCKET cfg) (generate_output_key key) tr3
      = (Returned tt, tr') ->
    stages_succeed bucket key tr'.

(** The stages before the submission succeed with a transcript that is not
    blank. *)
Definition transcript_fetched (bucket : value) (key text : str) (tr1 : trace) : Prop :=
  parse_s3_event isprintable event tr = (Returned (bucket, key), tr) /\
  get_transcript_from_s3 world bucket key tr = (Returned text, tr1) /\
  strip text <> [].

(** Some stage fails with [e], the trace being [tr'] then. *)
Inductive stage_fails (e : exn) (tr' : trace) : Prop :=
| parse_fails :
    parse_s3_event isprintable event tr = (Raised e, tr') ->
    stage_fails e tr'
| fetch_fails bucket key :
    parse_s3_event isprintable event tr = (Returned (bucket, key), tr) ->
    get_transcript_from_s3 world bucket key tr = (Raised e, tr') ->
    stage_fails e tr'
| transcript_empty bucket key text :
    parse_s3_event isprintable event tr = (Returned (bucket, key), tr) ->
    get_transcript_from_s3 world bucket key tr = (Returned text, tr') ->
    strip text = [] ->
    e = Exc ValueError (py "Transcript file is empty.") ->
    stage_fails e tr'
| submit_fails bucket key text tr1 :
    transcript_fetched bucket key text tr1 ->
    submit_job_to_runpod isprintable cfg world text tr1 = (Raised e, tr') ->
    stage_fails e tr'
| poll_fails bucket key text tr1 job_id tr2 :
    transcript_fetched bucket key text tr1 ->
    submit_job_to_runpod isprintable cfg world text tr1 = (Returned job_id, tr2) ->
    poll_runpod_job isprintable cfg world job_id tr2 = (Raised e, tr') ->
    stage_fails e tr'
| summary_length_fails bucket key text tr1 job_id tr2 summary :
    transcript_fetched bucket key text tr1 ->
    submit_job_to_runpod isprintable cfg world text tr1 = (Returned job_id, tr2) ->
    poll_runpod_job isprintable cfg world job_id tr2 = (Returned summary, tr') ->
    py_len summary = Raised e ->
    stage_fails e tr'
| store_fails bucket key text tr1 job_id tr2 summary tr3 n :
    transcript_fetched bucket key text tr1 ->
    submit_job_to_runpod isprintable cfg world text tr1 = (Returned job_id, tr2) ->
    poll_runpod_job isprintable cfg world job_id tr2 = (Returned summary, tr3) ->
    py_len summary = Returned n ->
    upload_summary_to_s3 world summary (OUTPUT_BUCKET cfg) (generate_output_key key) tr3
      = (Raised e, tr') ->
    stage_fails e tr'.

End Stages.

(** [isprintable] on ASCII, where it does not depend on the Unicode
    database; enough to run the handler on ASCII data. *)
Definition isprintable_ascii (c : codepoint) : bool := ((32 <=? c) && (c <? 127))%N.

(** *** Counting the calls of a trace *)

Definition count_posts (tr : trace) : nat :=
  List.length (filter (fun ev => match ev with HttpPost _ _ _ => true | _ => false end) tr).

Definition count_s3_gets (tr : trace) : nat :=
  List.length (filter (fun ev => match ev with S3GetObject _ _ => true | _ => false end) tr).

Definition count_s3_puts (tr : trace) : nat :=
  List.length (filter (fun ev => match ev with S3PutObject _ _ _ _ => true | _ => false end) tr).

(** The request that submits [text]: its URL and its JSON body. *)
Definition run_url (cfg : Config) : str := setting_str (RUNPOD_API_ENDPOINT cfg) ++ py "/run".

Definition run_payload (text : str) : value :=
  VDict [(py "input",
          VDict [(py "prompt", VStr (summary_prompt text));
                 (py "max_tokens", VInt 6000);
                 (py "temperature", VFloat (FFinite (py "0.5")));
                 (py "top_p", VFloat (FFinite (py "0.9")))])].

(** The stage a call belongs to: reading the transcript, submitting the job,
    polling, storing the summary. *)
Definition phase (ev : event) : nat :=
  match ev with
  | S3GetObject _ _ => 0
  | HttpPost _ _ _ => 1
  | HttpGet _ _ | Sleep _ => 2
  | S3PutObject _ _ _ _ => 3
  end.

(** No call of a trace is followed by a call of an earlier stage. *)
Fixpoint in_phase_order (tr : trace) : bool :=
  match tr with
  | ev :: rest =>
      match rest with
      | next :: _ => (phase ev <=? phase next)%nat && in_phase_order rest
      | [] => true
      end
  | [] => true
  end.

(** [envelope["statusCode"]] of what [lambda_handler] returns. *)
Definition status_code (envelope : value) : option value :=
  match envelope with
  | VDict d => dict_lookup (py "statusCode") d
  | _ => None
  end.

(** [envelope["body"]] of what [lambda_handler] returns. *)
Definition envelope_body (envelope : value) : option value :=
  match envelope with
  | VDict d => dict_lookup (py "body") d
  | _ => None
  end.

(** A printable ASCII character. *)
Definition printable_ascii (c : codepoint) : bool := ((32 <=? c) && (c <=? 126))%N.

(** A text between double quotes. *)
Definition quoted (s : str) : str := [34%N] ++ s ++ [34%N].

(** A text of printable ASCII characters without double quote and without
    backslash: [json.dumps] has nothing to escape in it. *)
Definition plain_text (s : str) : bool :=
  forallb (fun c => printable_ascii c && negb (c =? 34)%N && negb (c =? 92)%N) s.

(** The JSON text of an object whose fields are all strings, written
    directly: the fields in their order, [", "] between them, [": "] between
    a key and its value, both between double quotes. *)
Definition flat_json (fields : list (str * str)) : str :=
  py "{" ++
  join (py ", ") (map (fun kv => quoted (fst kv) ++ py ": " ++ quoted (snd kv)) fields) ++
  py "}".

(** The object with the string fields [fields]. *)
Definition flat_object (fields : list (str * str)) : value :=
  VDict (map (fun kv => (fst kv, VStr (snd kv))) fields).

(** The keys and the values of [fields] need no escaping. *)
Definition plain_fields (fields : list (str * str)) : bool :=
  forallb (fun kv => plain_text (fst kv) && plain_text (snd kv)) fields.

(** The text of the prompt before the transcript and after it (lines 120 to
    126 of the source, with their indentation). *)
Definition prompt_head : str :=
  py "Your task is to create a comprehensive summary of the following transcription. "
    ++ NEWLINE ++
  py "    The summary should be detailed and approximately 4,000 words in length."
    ++ NEWLINE ++
  py "    " ++ NEWLINE ++
  py "    Transcription:" ++ NEWLINE ++
  py "    ".

Definition prompt_tail : str :=
  NEWLINE ++ py "    " ++ NEWLINE ++ py "    Summary:".

(** [n] lists around a value. *)
Fixpoint nest (n : nat) (v : value) : value :=
  match n with
  | O => v
  | S n' => VList [nest n' v]
  end.

(** ** Sample data *)

Module Sample.

Definition cfg : Config :=
  {| RUNPOD_API_KEY := Some (py "secret");
     RUNPOD_API_ENDPOINT := Some (py "https://api.runpod.ai/v2/endpoint");
     OUTPUT_BUCKET := py "summaries";
     MAX_POLLING_ATTEMPTS := 3;
     POLLING_INTERVAL := 10 |}.

(** A world whose S3 object holds [transcript] and whose [n]-th status
    request is answered by [replies n]. *)
Definition world (transcript : str) (replies : nat -> outcome value) : World :=
  {| s3_get_object := fun _ _ => Returned transcript;
     s3_put_object := fun _ _ _ _ => Returned tt;
     requests_post := fun _ _ _ => Returned (VDict [(py "id", VStr (py "job-1"))]);
     requests_get := fun n _ _ => replies n |}.

Definition job_id : value := VStr (py "job-1").

Definition url : str := py "https://api.runpod.ai/v2/endpoint/status/job-1".

Definition headers : value :=
  VDict [(py "Authorization", VStr (py "Bearer secret"));
         (py "Content-Type", VStr (py "application/json"))].

Definition running : dict := [(py "status", VStr (py "RUNNING"))].

Definition completed (output : value) : dict :=
  [(py "status", VStr (py "COMPLETED")); (py "output", output)].

Definition failed : dict :=
  [(py "status", VStr (py "FAILED")); (py "error", VStr (py "boom"))].

Definition always_running (n : nat) : outcome value := Returned (VDict running).

Definition running_running_completed (n : nat) : outcome value :=
  match n with
  | 0%nat | 1%nat => Returned (VDict running)
  | _ => Returned (VDict (completed (VDict [(py "text", VStr (py "X"))])))
  end.

Definition completes_with (output : value) (n : nat) : outcome value :=
  Returned (VDict (completed output)).

Definition completes_without_output (n : nat) : outcome value :=
  Returned (VDict [(py "status", VStr (py "COMPLETED"))]).

Definition fails_at_once (n : nat) : outcome value := Returned (VDict failed).

Definition unreachable (n : nat) : outcome value :=
  Raised (Exc RequestException (py "Connection refused")).

(** An S3 notification with two records. *)
Definition record (bucket key : str) : value :=
  VDict [(py "s3",
          VDict [(py "bucket", VDict [(py "name", VStr bucket)]);
                 (py "object", VDict [(py "key", VStr key)])])].

Definition event : value :=
  VDict [(py "Records",
          VList [record (py "my+bucket") (py "talks/my+talk%2B1.txt");
                 record (py "other") (py "ignored.txt")])].

Definition blank : str := [32; 9; 10; 160]%N.

(** The room [json.dumps] has under the usual recursion limit of 1000. *)
Definition spare_depth : nat := 900.

(** An S3 notification whose list of records is nested 1000 deep. *)
Definition deep_event : value := VDict [(py "Records", nest 1000 (VList []))].

End Sample.

(** ** More sample data *)

Module Cases.

Definition cfg_without_key : Config :=
  {| RUNPOD_API_KEY := None;
     RUNPOD_API_ENDPOINT := Some (py "https://api.runpod.ai/v2/endpoint");
     OUTPUT_BUCKET := py "summaries";
     MAX_POLLING_ATTEMPTS := 3;
     POLLING_INTERVAL := 10 |}.

Definition cfg_without_budget : Config :=
  {| RUNPOD_API_KEY := Some (py "secret");
     RUNPOD_API_ENDPOINT := Some (py "https://api.runpod.ai/v2/endpoint");
     OUTPUT_BUCKET := py "summaries";
     MAX_POLLING_ATTEMPTS := 0;
     POLLING_INTERVAL := 10 |}.

Definition cfg_negative_interval : Config :=
  {| RUNPOD_API_KEY := Some (py "secret");
     RUNPOD_API_ENDPOINT := Some (py "https://api.runpod.ai/v2/endpoint");
     OUTPUT_BUCKET := py "summaries";
     MAX_POLLING_ATTEMPTS := 3;
     POLLING_INTERVAL := -1 |}.

(** A world whose submission is answered by [answer]. *)
Definition world_answering (answer : outcome value) : World :=
  {| s3_get_object := fun _ _ => Returned (py "hello world");
     s3_put_object := fun _ _ _ _ => Returned tt;
     requests_post := fun _ _ _ => answer;
     requests_get := fun _ _ _ => Returned (VDict Sample.running) |}.

Definition gateway_down : exn := Exc RequestException (py "502 Server Error: Bad Gateway").

Definition not_json : exn := Exc ValueError (py "Expecting value: line 1 column 1 (char 0)").

Definition fails_with (e : exn) (n : nat) : outcome value := Raised e.

(** An event whose key needs no decoding. *)
Definition plain_event : value :=
  VDict [(py "Records", VList [Sample.record (py "uploads") (py "talks/intro.txt")])].

Definition padded : str := py "  hello world " ++ NEWLINE.

(** The JSON body that submits the transcript [text], written out. *)
Definition payload_of (text : str) : value :=
  VDict [(py "input",
          VDict [(py "prompt",
                  VStr (py "Your task is to create a comprehensive summary of the following transcription. "
                        ++ NEWLINE ++
                        py "    The summary should be detailed and approximately 4,000 words in length."
                        ++ NEWLINE ++
                        py "    " ++ NEWLINE ++
                        py "    Transcription:" ++ NEWLINE ++
                        py "    " ++ text ++ NEWLINE ++
                        py "    " ++ NEWLINE ++
                        py "    Summary:"));
                 (py "max_tokens", VInt 6000);
                 (py "temperature", VFloat (FFinite (py "0.5")));
                 (py "top_p", VFloat (FFinite (py "0.9")))])].

Definition run_url : str := py "https://api.runpod.ai/v2/endpoint/run".

End Cases.

(** * Properties *)

Lemma count_gets_app (a b : trace) : count_gets (a ++ b) = (count_gets a + count_gets b)%nat.
Proof. unfold count_gets. now rewrite filter_app, length_app. Qed.

Lemma count_sleeps_app (a b : trace) :
  count_sleeps (a ++ b) = (count_sleeps a + count_sleeps b)%nat.
Proof. unfold count_sleeps. now rewrite filter_app, length_app. Qed.

Lemma count_gets_rounds url headers secs k :
  count_gets (polling_rounds url headers secs k) = k.
Proof. induction k; simpl; [reflexivity | unfold count_gets in *; simpl; now rewrite IHk]. Qed.

Lemma count_sleeps_rounds url headers secs k :
  count_sleeps (polling_rounds url headers secs k) = k.
Proof. induction k; simpl; [reflexivity | unfold count_sleeps in *; simpl; now rewrite IHk]. Qed.

(** ** [json.dumps] on plain text *)

Lemma json_escape_char_plain c :
  printable_ascii c && negb (c =? 34)%N && negb (c =? 92)%N = true ->
  json_escape_char c = [c].
Proof.
  intros H. apply andb_true_iff in H as [H H92]. apply andb_true_iff in H as [Hp H34].
  apply negb_true_iff in H34, H92. unfold json_escape_char. rewrite H34, H92.
  unfold printable_ascii in Hp. pose proof Hp as Hrange.
  apply andb_true_iff in Hrange as [Hlo Hhi]. apply N.leb_le in Hlo.
  repeat match goal with
         | |- context [(c =? ?k)%N] =>
             destruct (N.eqb_spec c k); [exfalso; subst c; vm_compute in Hlo; now apply Hlo |]
         end.
  now rewrite Hp.
Qed.

Lemma json_string_plain s : plain_text s = true -> json_string s = quoted s.
Proof.
  intros Hs. unfold json_string, quoted. f_equal. f_equal.
  induction s as [|c s IH]; [reflexivity |].
  cbn [plain_text forallb] in Hs. apply andb_true_iff in Hs as [Hc Hs].
  cbn [flat_map]. rewrite (json_escape_char_plain c Hc), (IH Hs). reflexivity.
Qed.

(** [json.dumps] of an object of plain string fields is the text written
    directly. *)
Lemma json_dumps_flat_object fields :
  plain_fields fields = true -> json_dumps (flat_object fields) = flat_json fields.
Proof.
  intros Hplain. unfold flat_object, flat_json. cbn [json_dumps].
  rewrite map_map. f_equal. f_equal. f_equal.
  induction fields as [|[k v] fields IH]; [reflexivity |].
  cbn [plain_fields forallb fst snd] in Hplain.
  apply andb_true_iff in Hplain as [Hkv Hrest]. apply andb_true_iff in Hkv as [Hk Hv].
  cbn [map fst snd json_dumps]. rewrite (json_string_plain k Hk), (json_string_plain v Hv).
  f_equal. exact (IH Hrest).
Qed.

(** ** The polling loop *)

Section Polling.

Variable isprintable : codepoint -> bool.
Variable cfg : Config.
Variable world : World.
Variable job_id : value.

Let url := status_url isprintable cfg job_id.
Let headers := auth_headers cfg.
Let secs := POLLING_INTERVAL cfg.
Let reply := status_reply isprintable cfg world job_id.

Let attempt := poll_attempt isprintable cfg world job_id headers.
Let rounds := polling_rounds url headers secs.

(** An attempt whose answer is not terminal sleeps and leaves the loop
    running. *)
Lemma poll_attempt_non_terminal a tr :
  0 <= secs ->
  non_terminal (reply (count_gets tr)) = true ->
  attempt a tr = (Returned None, tr ++ [HttpGet url headers; Sleep secs]).
Proof.
  intros Hsecs Hnt.
  unfold attempt, poll_attempt, try_except, poll_try, bind, requests_get_json.
  fold url. unfold reply, status_reply in Hnt. fold url headers in Hnt.
  destruct (requests_get world (count_gets tr) url headers) as [[ | | | | | |d]|e];
    try discriminate Hnt.
  simpl in Hnt. apply andb_true_iff in Hnt as [Hc Hf].
  apply negb_true_iff in Hc, Hf.
  unfold lift, get_method, status_of in *.
  destruct (dict_lookup (py "status") d) as [st|];
    rewrite Hc, Hf; unfold time_sleep, ret; fold secs;
    (destruct (Z.ltb_spec secs 0); [lia |]); now rewrite <- app_assoc.
Qed.

(** So does an attempt whose request fails at transport level. *)
Lemma poll_attempt_transport_failure a tr :
  0 <= secs ->
  transport_failure (reply (count_gets tr)) = true ->
  attempt a tr = (Returned None, tr ++ [HttpGet url headers; Sleep secs]).
Proof.
  intros Hsecs Htf.
  unfold attempt, poll_attempt, try_except, poll_try, bind, requests_get_json.
  fold url. unfold reply, status_reply in Htf. fold url headers in Htf.
  destruct (requests_get world (count_gets tr) url headers) as [v|e];
    try discriminate Htf.
  simpl in Htf. simpl existsb. rewrite Htf. simpl.
  unfold time_sleep, ret. fold secs.
  destruct (Z.ltb_spec secs 0); [lia |]. now rewrite <- app_assoc.
Qed.

(** [k] attempts in a row that are retried are [k] rounds of the trace. *)
Lemma for_range_retried (orelse : Eff value) k :
  forall n a tr,
    ((0 < k)%nat -> 0 <= secs) ->
    (forall i, (i < k)%nat ->
       non_terminal (reply (count_gets tr + i)) = true \/
       transport_failure (reply (count_gets tr + i)) = true) ->
    for_range a (k + n) attempt orelse tr =
    for_range (a + k) n attempt orelse (tr ++ rounds k).
Proof.
  induction k as [|k IH]; intros n a tr Hsecs Hre.
  - simpl. now rewrite Nat.add_0_r, app_nil_r.
  - assert (Hs : 0 <= secs) by (apply Hsecs; lia).
    assert (Hstep : attempt a tr = (Returned None, tr ++ [HttpGet url headers; Sleep secs])).
    { destruct (Hre 0%nat ltac:(lia)) as [H|H]; rewrite Nat.add_0_r in H.
      - now apply poll_attempt_non_terminal.
      - now apply poll_attempt_transport_failure. }
    change (for_range a (S k + n) attempt orelse tr)
      with (bind (attempt a)
              (fun r => match r with
                        | Some v => ret v
                        | None => for_range (S a) (k + n) attempt orelse
                        end) tr).
    unfold bind at 1. rewrite Hstep.
    rewrite IH; trivial.
    + replace (S a + k)%nat with (a + S k)%nat by lia.
      f_equal. rewrite <- app_assoc. reflexivity.
    + intros i Hi. rewrite count_gets_app.
      replace (count_gets tr + count_gets [HttpGet url headers; Sleep secs] + i)%nat
        with (count_gets tr + S i)%nat by (unfold count_gets; simpl; lia).
      apply Hre. lia.
Qed.

Let budget := Z.to_nat (MAX_POLLING_ATTEMPTS cfg).
Let timed_out : Eff value := reraise (polling_timed_out isprintable cfg job_id).

(** A run whose first [i] attempts are retried arrives at attempt [i] with
    [i] rounds behind it. *)
Lemma poll_runpod_job_reaches i tr :
  (i < budget)%nat ->
  ((0 < i)%nat -> 0 <= secs) ->
  (forall j, (j < i)%nat ->
     non_terminal (reply (count_gets tr + j)) = true \/
     transport_failure (reply (count_gets tr + j)) = true) ->
  poll_runpod_job isprintable cfg world job_id tr =
  match attempt i (tr ++ rounds i) with
  | (Returned (Some v), tr') => (Returned v, tr')
  | (Returned None, tr') => for_range (S i) (budget - S i) attempt timed_out tr'
  | (Raised e, tr') => (Raised e, tr')
  end.
Proof.
  intros Hi Hsecs Hre.
  unfold poll_runpod_job. fold headers attempt budget timed_out.
  replace budget with (i + S (budget - S i))%nat at 1 by lia.
  rewrite for_range_retried by assumption.
  simpl. unfold bind.
  destruct (attempt i (tr ++ rounds i)) as [[[v|]|e] tr']; reflexivity.
Qed.

(** A run whose attempts are all retried ends in the time-out. *)
Lemma poll_runpod_job_exhausts tr :
  ((0 < budget)%nat -> 0 <= secs) ->
  (forall j, (j < budget)%nat ->
     non_terminal (reply (count_gets tr + j)) = true \/
     transport_failure (reply (count_gets tr + j)) = true) ->
  poll_runpod_job isprintable cfg world job_id tr =
  (Raised (polling_timed_out isprintable cfg job_id), tr ++ rounds budget).
Proof.
  intros Hsecs Hre.
  unfold poll_runpod_job. fold headers attempt budget timed_out.
  replace budget with (budget + 0)%nat at 1 by lia.
  rewrite for_range_retried by assumption. reflexivity.
Qed.

Lemma count_gets_reached i tr : count_gets (tr ++ rounds i) = (count_gets tr + i)%nat.
Proof. rewrite count_gets_app. unfold rounds. now rewrite count_gets_rounds. Qed.

Lemma poll_attempt_completed a tr d :
  reply (count_gets tr) = Returned (VDict d) ->
  dict_lookup (py "status") d = Some (VStr (py "COMPLETED")) ->
  attempt a tr =
  (match completed_result (output_of d) with
   | Returned v => Returned (Some v)
   | Raised e => Raised e
   end, tr ++ [HttpGet url headers]).
Proof.
  intros Hreply Hst.
  unfold attempt, poll_attempt, try_except, poll_try, bind, requests_get_json.
  fold url. unfold reply, status_reply in Hreply. fold url headers in Hreply. rewrite Hreply.
  unfold lift, get_method. rewrite Hst.
  replace (eq_str (VStr (py "COMPLETED")) (py "COMPLETED")) with true by reflexivity.
  unfold output_of, completed_result.
  destruct (dict_lookup (py "output") d) as [[ | | | | | |o]|]; try reflexivity.
  - unfold py_in, dict_has, getitem.
    destruct (dict_lookup (py "text") o); reflexivity.
Qed.

Lemma poll_attempt_failed a tr d :
  reply (count_gets tr) = Returned (VDict d) ->
  dict_lookup (py "status") d = Some (VStr (py "FAILED")) ->
  attempt a tr =
  (Raised (job_failed isprintable (error_detail d)), tr ++ [HttpGet url headers]).
Proof.
  intros Hreply Hst.
  unfold attempt, poll_attempt, try_except, poll_try, bind, requests_get_json.
  fold url. unfold reply, status_reply in Hreply. fold url headers in Hreply. rewrite Hreply.
  unfold lift, get_method. rewrite Hst.
  replace (eq_str (VStr (py "FAILED")) (py "COMPLETED")) with false by reflexivity.
  replace (eq_str (VStr (py "FAILED")) (py "FAILED")) with true by reflexivity.
  unfold error_detail, job_failed.
  destruct (dict_lookup (py "error") d); reflexivity.
Qed.

(** C1.  With an attempt budget [N >= 1] and every status request answered
    by a non-terminal status (such as [RUNNING]), [poll_runpod_job] raises
    the polling time-out ([TimeoutError]) after exactly [N] status requests
    and exactly [N] sleeps: the trace is [N] rounds of one request followed
    by one sleep of the configured interval, the last attempt included. *)
Theorem poll_runpod_job_times_out_when_running tr :
  1 <= MAX_POLLING_ATTEMPTS cfg ->
  0 <= POLLING_INTERVAL cfg ->
  (forall i, (i < budget)%nat -> non_terminal (reply (count_gets tr + i)) = true) ->
  poll_runpod_job isprintable cfg world job_id tr =
    (Raised (polling_timed_out isprintable cfg job_id), tr ++ rounds budget) /\
  exc_type (polling_timed_out isprintable cfg job_id) = TimeoutError /\
  Z.of_nat (count_gets (rounds budget)) = MAX_POLLING_ATTEMPTS cfg /\
  Z.of_nat (count_sleeps (rounds budget)) = MAX_POLLING_ATTEMPTS cfg.
Proof.
  intros Hmax Hsecs Hrun. split; [| split; [reflexivity |]].
  - apply poll_runpod_job_exhausts; auto.
  - unfold rounds. rewrite count_gets_rounds, count_sleeps_rounds.
    unfold budget. lia.
Qed.

(** C2.  When the first two status requests answer [RUNNING] and the third
    answers [COMPLETED] with output [{"text": X}], [poll_runpod_job] returns
    [X] after exactly three status requests and two sleeps: the trace ends
    with the third request, and the rest of the budget is not used. *)
Theorem poll_runpod_job_running_running_completed tr d0 d1 d2 (x : str) :
  3 <= MAX_POLLING_ATTEMPTS cfg ->
  0 <= POLLING_INTERVAL cfg ->
  reply (count_gets tr) = Returned (VDict d0) ->
  dict_lookup (py "status") d0 = Some (VStr (py "RUNNING")) ->
  reply (count_gets tr + 1) = Returned (VDict d1) ->
  dict_lookup (py "status") d1 = Some (VStr (py "RUNNING")) ->
  reply (count_gets tr + 2) = Returned (VDict d2) ->
  dict_lookup (py "status") d2 = Some (VStr (py "COMPLETED")) ->
  dict_lookup (py "output") d2 = Some (VDict [(py "text", VStr x)]) ->
  let steps := [HttpGet url headers; Sleep secs;
                HttpGet url headers; Sleep secs;
                HttpGet url headers] in
  poll_runpod_job isprintable cfg world job_id tr = (Returned (VStr x), tr ++ steps) /\
  count_gets steps = 3%nat /\ count_sleeps steps = 2%nat.
Proof.
  intros Hmax Hsecs H0 S0 H1 S1 H2 S2 Hout steps.
  split; [| split; reflexivity].
  rewrite (poll_runpod_job_reaches 2).
  - rewrite (poll_attempt_completed _ _ d2).
    + unfold output_of. rewrite Hout. simpl.
      unfold steps. now rewrite <- app_assoc.
    + now rewrite count_gets_reached.
    + assumption.
  - unfold budget. lia.
  - intros _. exact Hsecs.
  - intros j Hj. left.
    assert (Hcases : j = 0%nat \/ j = 1%nat) by lia.
    destruct Hcases as [-> | ->].
    + rewrite Nat.add_0_r, H0. unfold non_terminal, status_of. now rewrite S0.
    + rewrite H1. unfold non_terminal, status_of. now rewrite S1.
Qed.

(** C3.  When attempt [i] of a run is reached and its answer has status
    [FAILED], [poll_runpod_job] raises at once the job-failure exception that
    carries the answer's error detail, with ["Unknown error"] when the answer
    has no error field: the trace ends with the request of attempt [i], with
    no sleep after it and no further request. *)
Theorem poll_runpod_job_failed_raises i tr d :
  (i < budget)%nat ->
  ((0 < i)%nat -> 0 <= POLLING_INTERVAL cfg) ->
  (forall j, (j < i)%nat ->
     non_terminal (reply (count_gets tr + j)) = true \/
     transport_failure (reply (count_gets tr + j)) = true) ->
  reply (count_gets tr + i) = Returned (VDict d) ->
  dict_lookup (py "status") d = Some (VStr (py "FAILED")) ->
  let steps := rounds i ++ [HttpGet url headers] in
  poll_runpod_job isprintable cfg world job_id tr =
    (Raised (job_failed isprintable (error_detail d)), tr ++ steps) /\
  (forall detail : str,
     dict_lookup (py "error") d = Some (VStr detail) ->
     exc_text (job_failed isprintable (error_detail d)) = py "Runpod job failed: " ++ detail) /\
  (dict_lookup (py "error") d = None -> error_detail d = VStr (py "Unknown error")) /\
  count_gets steps = S i /\ count_sleeps steps = i.
Proof.
  intros Hi Hsecs Hre Hreply Hst steps. repeat split.
  - rewrite (poll_runpod_job_reaches i) by assumption.
    rewrite (poll_attempt_failed _ _ d).
    + unfold steps. now rewrite <- app_assoc.
    + now rewrite count_gets_reached.
    + assumption.
  - intros detail Hd. unfold error_detail. now rewrite Hd.
  - intros Hd. unfold error_detail. now rewrite Hd.
  - unfold steps, rounds. rewrite count_gets_app, count_gets_rounds.
    unfold count_gets. simpl. lia.
  - unfold steps, rounds. rewrite count_sleeps_app, count_sleeps_rounds.
    unfold count_sleeps. simpl. lia.
Qed.

(** C4.  When attempt [i] of a run is reached and its answer has status
    [COMPLETED], [poll_runpod_job] returns at that request: the value of the
    output's [text] field when the output is a mapping that has one, the
    output itself when it is a string, and the JSON serialization of the
    whole output when it is a mapping without a [text] field; for a mapping
    of plain string fields that serialization is the text [flat_json] writes
    out, every field in its place between the braces. *)
Theorem poll_runpod_job_completed_output i tr d :
  (i < budget)%nat ->
  ((0 < i)%nat -> 0 <= POLLING_INTERVAL cfg) ->
  (forall j, (j < i)%nat ->
     non_terminal (reply (count_gets tr + j)) = true \/
     transport_failure (reply (count_gets tr + j)) = true) ->
  reply (count_gets tr + i) = Returned (VDict d) ->
  dict_lookup (py "status") d = Some (VStr (py "COMPLETED")) ->
  let run := poll_runpod_job isprintable cfg world job_id tr in
  let tr' := tr ++ rounds i ++ [HttpGet url headers] in
  (forall o x,
     dict_lookup (py "output") d = Some (VDict o) ->
     dict_lookup (py "text") o = Some x ->
     run = (Returned x, tr')) /\
  (forall s,
     dict_lookup (py "output") d = Some (VStr s) ->
     run = (Returned (VStr s), tr')) /\
  (forall o,
     dict_lookup (py "output") d = Some (VDict o) ->
     dict_lookup (py "text") o = None ->
     run = (Returned (VStr (json_dumps (VDict o))), tr')) /\
  (forall fields,
     dict_lookup (py "output") d = Some (flat_object fields) ->
     dict_lookup (py "text") (map (fun kv => (fst kv, VStr (snd kv))) fields) = None ->
     plain_fields fields = true ->
     run = (Returned (VStr (flat_json fields)), tr')).
Proof.
  intros Hi Hsecs Hre Hreply Hst run tr'.
  assert (Hrun : run =
            (match completed_result (output_of d) with
             | Returned v => Returned v
             | Raised e => Raised e
             end, tr')).
  { unfold run. rewrite (poll_runpod_job_reaches i) by assumption.
    rewrite (poll_attempt_completed _ _ d).
    - unfold tr'. rewrite <- app_assoc.
      destruct (completed_result (output_of d)); reflexivity.
    - now rewrite count_gets_reached.
    - assumption. }
  rewrite Hrun. unfold output_of, completed_result.
  repeat split.
  - intros o x Ho Hx. now rewrite Ho, Hx.
  - intros s Hs. now rewrite Hs.
  - intros o Ho Hx. now rewrite Ho, Hx.
  - intros fields Ho Hx Hplain. rewrite Ho. unfold flat_object at 1. rewrite Hx.
    now rewrite <- (json_dumps_flat_object fields Hplain).
Qed.

(** C5.  A status request that fails at transport level (a
    [RequestException]) uses up one attempt of the budget: the attempt ends
    with a sleep of the configured interval and the loop goes on with the
    attempts that are left.  When every attempt fails so,
    [poll_runpod_job] raises the polling time-out after
    [MAX_POLLING_ATTEMPTS] status requests and as many sleeps. *)
Theorem poll_runpod_job_transport_failures tr :
  0 <= POLLING_INTERVAL cfg ->
  (forall i,
     (i < budget)%nat ->
     (forall j, (j < i)%nat ->
        non_terminal (reply (count_gets tr + j)) = true \/
        transport_failure (reply (count_gets tr + j)) = true) ->
     transport_failure (reply (count_gets tr + i)) = true ->
     poll_runpod_job isprintable cfg world job_id tr =
     for_range (S i) (budget - S i) attempt timed_out
       (tr ++ rounds i ++ [HttpGet url headers; Sleep secs])) /\
  ((forall i, (i < budget)%nat -> transport_failure (reply (count_gets tr + i)) = true) ->
   poll_runpod_job isprintable cfg world job_id tr =
     (Raised (polling_timed_out isprintable cfg job_id), tr ++ rounds budget) /\
   exc_type (polling_timed_out isprintable cfg job_id) = TimeoutError /\
   count_gets (rounds budget) = budget /\
   count_sleeps (rounds budget) = budget).
Proof.
  intros Hsecs. split.
  - intros i Hi Hre Hfail.
    rewrite (poll_runpod_job_reaches i); auto.
    rewrite poll_attempt_transport_failure.
    + now rewrite <- app_assoc.
    + exact Hsecs.
    + now rewrite count_gets_reached.
  - intros Hall. split; [| split; [reflexivity | split]].
    + apply poll_runpod_job_exhausts; auto.
    + apply count_gets_rounds.
    + apply count_sleeps_rounds.
Qed.

(** C10.  When attempt [i] of a run is reached and its answer has status
    [COMPLETED]: an output field that is present and is neither a mapping
    nor a string (a list, a number, a boolean, [null]) makes
    [poll_runpod_job] raise the [AttributeError] of the missing [get]
    method, and no summary is returned; an absent output field makes it
    return ["{}"], the serialization of the empty mapping. *)
Theorem poll_runpod_job_completed_odd_output i tr d :
  (i < budget)%nat ->
  ((0 < i)%nat -> 0 <= POLLING_INTERVAL cfg) ->
  (forall j, (j < i)%nat ->
     non_terminal (reply (count_gets tr + j)) = true \/
     transport_failure (reply (count_gets tr + j)) = true) ->
  reply (count_gets tr + i) = Returned (VDict d) ->
  dict_lookup (py "status") d = Some (VStr (py "COMPLETED")) ->
  let run := poll_runpod_job isprintable cfg world job_id tr in
  let tr' := tr ++ rounds i ++ [HttpGet url headers] in
  (forall output,
     dict_lookup (py "output") d = Some output ->
     (forall o, output <> VDict o) ->
     (forall s, output <> VStr s) ->
     run = (Raised (Exc AttributeError
                      (py "'" ++ type_name output ++ py "' object has no attribute 'get'")),
            tr')) /\
  (dict_lookup (py "output") d = None ->
   run = (Returned (VStr (py "{}")), tr')).
Proof.
  intros Hi Hsecs Hre Hreply Hst run tr'.
  assert (Hrun : run =
            (match completed_result (output_of d) with
             | Returned v => Returned v
             | Raised e => Raised e
             end, tr')).
  { unfold run. rewrite (poll_runpod_job_reaches i) by assumption.
    rewrite (poll_attempt_completed _ _ d).
    - unfold tr'. rewrite <- app_assoc.
      destruct (completed_result (output_of d)); reflexivity.
    - now rewrite count_gets_reached.
    - assumption. }
  rewrite Hrun. unfold output_of. split.
  - intros output Ho Hnd Hns. rewrite Ho.
    destruct output; try reflexivity.
    + now destruct (Hns s).
    + now destruct (Hnd d0).
  - intros Ho. rewrite Ho. reflexivity.
Qed.

End Polling.

(** ** The output key *)

Lemma rpartition_without sep s : has_char sep s = false -> rpartition sep s = None.
Proof.
  induction s as [|c s IH]; simpl; [reflexivity |].
  intros H. apply orb_false_iff in H as [Hc Hs].
  rewrite (IH Hs). rewrite N.eqb_sym. now rewrite Hc.
Qed.

Lemma rpartition_last sep base ext :
  has_char sep ext = false -> rpartition sep (base ++ sep :: ext) = Some (base, ext).
Proof.
  intros Hext. induction base as [|c base IH]; simpl.
  - rewrite (rpartition_without _ _ Hext). now rewrite N.eqb_refl.
  - now rewrite IH.
Qed.

(** A text with a separator splits at its last separator. *)
Lemma last_separator sep s :
  has_char sep s = true ->
  exists base ext, s = base ++ sep :: ext /\ has_char sep ext = false.
Proof.
  induction s as [|c s IH]; simpl; [discriminate |].
  destruct (has_char sep s) eqn:Hs.
  - intros _. destruct (IH eq_refl) as (base & ext & -> & Hext).
    now exists (c :: base), ext.
  - rewrite orb_false_r. intros Hc. apply N.eqb_eq in Hc as <-.
    now exists [], s.
Qed.

(** C6.  [generate_output_key] drops the last ['.']-delimited segment of the
    key, or keeps the whole key when it has no ['.'], and returns
    [summaries/<base>_summary.txt]; so ["foo/bar.txt"] gives
    ["summaries/foo/bar_summary.txt"] and ["noext"] gives
    ["summaries/noext_summary.txt"]. *)
Theorem generate_output_key_strips_extension :
  (forall key,
     (has_char (chr ".") key = false /\
      generate_output_key key = py "summaries/" ++ key ++ py "_summary.txt") \/
     (exists base ext,
        key = base ++ chr "." :: ext /\ has_char (chr ".") ext = false /\
        generate_output_key key = py "summaries/" ++ base ++ py "_summary.txt")) /\
  generate_output_key (py "foo/bar.txt") = py "summaries/foo/bar_summary.txt" /\
  generate_output_key (py "noext") = py "summaries/noext_summary.txt".
Proof.
  split; [| split; reflexivity].
  intros key. unfold generate_output_key.
  destruct (has_char (chr ".") key) eqn:Hdot.
  - right. destruct (last_separator _ _ Hdot) as (base & ext & -> & Hext).
    exists base, ext. repeat split; trivial.
    unfold rsplit1. now rewrite (rpartition_last _ _ _ Hext).
  - left. now split.
Qed.

(** ** The event parser *)

Lemma parse_s3_event_pure isprintable event tr :
  snd (parse_s3_event isprintable event tr) = tr.
Proof.
  unfold parse_s3_event, try_except, bind, lift, ret, raise.
  repeat match goal with
         | |- context [match ?o with Returned _ => _ | Raised _ => _ end] =>
             destruct o; simpl
         | |- context [if ?b then _ else _] => destruct b; simpl
         end; reflexivity.
Qed.

Lemma has_char_replace (p a b : codepoint) (s : str) :
  p <> b -> has_char p s = false -> has_char p (replace_char a b s) = false.
Proof.
  intros Hpb. induction s as [|c s IH]; [reflexivity |].
  unfold has_char, replace_char in *. cbn [existsb map].
  intros H. apply orb_false_iff in H as [Hc Hs].
  rewrite (IH Hs), orb_false_r.
  destruct (N.eqb_spec c a); [now apply N.eqb_neq | exact Hc].
Qed.

Lemma seq_index_first {A} (x : A) (l : list A) : seq_index (x :: l) 0 = Some x.
Proof.
  unfold seq_index. simpl Z.leb. cbv beta iota.
  replace (0 <? Z.of_nat (List.length (x :: l))) with true; [reflexivity |].
  symmetry. apply Z.ltb_lt. simpl List.length. lia.
Qed.

(** C7, as the code has it.  For an event whose first record is well formed,
    [parse_s3_event] returns the bucket name of that record as it is written
    and the URL-decoded object key of that record, plus signs decoding to
    spaces; the records after the first are not looked at. *)
Theorem parse_s3_event_first_record isprintable ev record rest s3 b o bucket key tr :
  dict_lookup (py "Records") ev = Some (VList (VDict record :: rest)) ->
  dict_lookup (py "s3") record = Some (VDict s3) ->
  dict_lookup (py "bucket") s3 = Some (VDict b) ->
  dict_lookup (py "name") b = Some (VStr bucket) ->
  dict_lookup (py "object") s3 = Some (VDict o) ->
  dict_lookup (py "key") o = Some (VStr key) ->
  parse_s3_event isprintable (VDict ev) tr = (Returned (VStr bucket, unquote_plus key), tr) /\
  unquote_plus key = unquote (replace_char (chr "+") (chr " ") key) /\
  (has_char (chr "%") key = false -> unquote_plus key = replace_char (chr "+") (chr " ") key).
Proof.
  intros Hrec Hs3 Hb Hname Ho Hkey. repeat split.
  - unfold parse_s3_event, try_except, bind, lift, getitem.
    rewrite Hrec. cbv beta iota. rewrite seq_index_first.
    cbv beta iota. rewrite Hs3. cbv beta iota. rewrite Hb. cbv beta iota.
    rewrite Hname. cbv beta iota. rewrite Ho. cbv beta iota. rewrite Hkey.
    reflexivity.
  - intros Hpct. unfold unquote_plus, unquote.
    replace (has_char (chr "%") (replace_char (chr "+") (chr " ") key)) with false;
      [reflexivity |].
    symmetry. apply has_char_replace; [discriminate | exact Hpct].
Qed.

(** ** The orchestrator *)

Lemma lstrip_blank s : forallb isspace s = true -> lstrip s = [].
Proof.
  induction s as [|c s IH]; [reflexivity |].
  cbn [forallb lstrip]. intros H. apply andb_true_iff in H as [Hc Hs].
  rewrite Hc. exact (IH Hs).
Qed.

Lemma strip_blank s : forallb isspace s = true -> strip s = [].
Proof. intros H. unfold strip. now rewrite (lstrip_blank _ H). Qed.

Section Orchestrator.

Variable isprintable : codepoint -> bool.
Variable cfg : Config.
Variable world : World.
Variable spare_depth : nat.

Let handler := lambda_handler isprintable cfg world spare_depth.
Let body := handler_try isprintable cfg world.

(** Once the event has been logged, the [except Exception] clause turns
    every exception of the [try] block into the error envelope. *)
Lemma lambda_handler_catches event tr :
  (json_depth event <= S spare_depth)%nat ->
  handler event tr =
  match body event tr with
  | (Returned envelope, tr') => (Returned envelope, tr')
  | (Raised e, tr') => (Returned (error_envelope e), tr')
  end.
Proof.
  intros Hdepth.
  unfold handler, lambda_handler, bind, lift, py_json_dumps, try_except. fold body.
  apply Nat.leb_le in Hdepth. rewrite Hdepth.
  destruct (body event tr) as [[envelope|e] tr']; reflexivity.
Qed.

(** An event nested too deep for [json.dumps] leaves [lambda_handler] as a
    [RecursionError], before the [try] block is entered. *)
Lemma lambda_handler_escapes event tr :
  (S spare_depth < json_depth event)%nat ->
  handler event tr =
  (Raised (Exc RecursionError
             (py "maximum recursion depth exceeded while encoding a JSON object")), tr).
Proof.
  intros Hdepth.
  unfold handler, lambda_handler, bind, lift, py_json_dumps.
  destruct (Nat.leb_spec (json_depth event) (S spare_depth)); [lia | reflexivity].
Qed.

Lemma handler_try_succeeds event tr bucket key tr' :
  stages_succeed isprintable cfg world event tr bucket key tr' ->
  body event tr =
  (Returned (success_envelope isprintable cfg bucket key (generate_output_key key)), tr').
Proof.
  intros [text tr1 job_id tr2 summary tr3 n Hparse Hfetch Htext Hsubmit Hpoll Hlen Hstore].
  unfold body, handler_try, bind. rewrite Hparse. cbn [fst snd]. rewrite Hfetch.
  destruct (strip text) as [|c rest]; [contradiction |].
  rewrite Hsubmit, Hpoll. unfold lift. rewrite Hlen, Hstore. reflexivity.
Qed.

Lemma handler_try_fails event tr e tr' :
  stage_fails isprintable cfg world event tr e tr' ->
  body event tr = (Raised e, tr').
Proof.
  intros Hfail. unfold body, handler_try, bind.
  destruct Hfail as
    [ Hparse
    | bucket key Hparse Hfetch
    | bucket key text Hparse Hfetch Hblank ->
    | bucket key text tr1 (Hparse & Hfetch & Htext) Hsubmit
    | bucket key text tr1 job_id tr2 (Hparse & Hfetch & Htext) Hsubmit Hpoll
    | bucket key text tr1 job_id tr2 summary (Hparse & Hfetch & Htext) Hsubmit Hpoll Hlen
    | bucket key text tr1 job_id tr2 summary tr3 n (Hparse & Hfetch & Htext)
        Hsubmit Hpoll Hlen Hstore ];
    rewrite Hparse; trivial; cbn [fst snd]; rewrite Hfetch; trivial.
  - now rewrite Hblank.
  - destruct (strip text); [contradiction |]. now rewrite Hsubmit.
  - destruct (strip text); [contradiction |]. now rewrite Hsubmit, Hpoll.
  - destruct (strip text); [contradiction |]. rewrite Hsubmit, Hpoll.
    unfold lift. now rewrite Hlen.
  - destruct (strip text); [contradiction |]. rewrite Hsubmit, Hpoll.
    unfold lift. now rewrite Hlen, Hstore.
Qed.

(** Every invocation either passes all stages or fails in one of them. *)
Lemma stages_exhaustive event tr :
  (exists bucket key tr', stages_succeed isprintable cfg world event tr bucket key tr') \/
  (exists e tr', stage_fails isprintable cfg world event tr e tr').
Proof.
  pose proof (parse_s3_event_pure isprintable event tr) as Hpure.
  destruct (parse_s3_event isprintable event tr) as [[[bucket key]|e] tr0] eqn:Hparse;
    simpl in Hpure; subst tr0.
  2: { right. exists e, tr. now apply parse_fails. }
  destruct (get_transcript_from_s3 world bucket key tr) as [[text|e] tr1] eqn:Hfetch.
  2: { right. exists e, tr1. now apply fetch_fails with bucket key. }
  destruct (strip text) as [|c rest] eqn:Htext.
  { right. eexists _, tr1. now apply transcript_empty with bucket key text. }
  assert (Hfetched : transcript_fetched isprintable world event tr bucket key text tr1).
  { repeat split; trivial. now rewrite Htext. }
  destruct (submit_job_to_runpod isprintable cfg world text tr1)
    as [[job_id|e] tr2] eqn:Hsubmit.
  2: { right. exists e, tr2. now apply submit_fails with bucket key text tr1. }
  destruct (poll_runpod_job isprintable cfg world job_id tr2)
    as [[summary|e] tr3] eqn:Hpoll.
  2: { right. exists e, tr3. now apply poll_fails with bucket key text tr1 job_id tr2. }
  destruct (py_len summary) as [n|e] eqn:Hlen.
  2: { right. exists e, tr3.
       now apply summary_length_fails with bucket key text tr1 job_id tr2 summary. }
  destruct (upload_summary_to_s3 world summary (OUTPUT_BUCKET cfg)
              (generate_output_key key) tr3) as [[[]|e] tr4] eqn:Hstore.
  2: { right. exists e, tr4.
       now apply store_fails with bucket key text tr1 job_id tr2 summary tr3 n. }
  left. exists bucket, key, tr4.
  destruct Hfetched as (_ & _ & Hne).
  now apply all_stages with text tr1 job_id tr2 summary tr3 n.
Qed.

(** C8.  When the fetched transcript is blank (only whitespace, or empty),
    the [try] block stops at the empty-transcript error, before the
    statement that submits the job: the invocation ends with the error
    envelope of that error (the event having been logged), and the only
    call it has made is the S3 read, so that no request went to the job
    API. *)
Theorem lambda_handler_blank_transcript event tr bucket key text :
  parse_s3_event isprintable event tr = (Returned (bucket, key), tr) ->
  s3_get_object world bucket key = Returned text ->
  forallb isspace text = true ->
  let empty_transcript := Exc ValueError (py "Transcript file is empty.") in
  body event tr = (Raised empty_transcript, tr ++ [S3GetObject bucket key]) /\
  ((json_depth event <= S spare_depth)%nat ->
   handler event tr =
     (Returned (error_envelope empty_transcript), tr ++ [S3GetObject bucket key])) /\
  no_job_api_call [S3GetObject bucket key] = true.
Proof.
  intros Hparse Hget Hblank empty_transcript.
  assert (Hbody : body event tr =
                  (Raised empty_transcript, tr ++ [S3GetObject bucket key])).
  { apply handler_try_fails. apply transcript_empty with bucket key text; trivial.
    - unfold get_transcript_from_s3, try_except, s3_client_get_object.
      now rewrite Hget.
    - now apply strip_blank. }
  split; [exact Hbody |]. split; [| reflexivity].
  intros Hdepth. rewrite lambda_handler_catches by exact Hdepth. now rewrite Hbody.
Qed.

(** X24.  For an event that [json.dumps] can encode where the handler
    starts, [lambda_handler] returns an envelope and does not raise.  When
    every stage succeeds the envelope has status code 200 and a body with
    the input and output locations; when a stage fails with an error the
    envelope has status code 500 and a body with the text of that error.
    One of the two is the case for every such event.  Where the locations
    and the error text need no escaping, the bodies are the JSON texts that
    [flat_json] writes out, field by field. *)
Theorem lambda_handler_returns_envelope event tr :
  (json_depth event <= S spare_depth)%nat ->
  (exists envelope tr', handler event tr = (Returned envelope, tr')) /\
  (forall bucket key tr',
     stages_succeed isprintable cfg world event tr bucket key tr' ->
     handler event tr =
     (Returned (success_envelope isprintable cfg bucket key (generate_output_key key)),
      tr')) /\
  (forall e tr',
     stage_fails isprintable cfg world event tr e tr' ->
     handler event tr = (Returned (error_envelope e), tr')) /\
  ((exists bucket key tr', stages_succeed isprintable cfg world event tr bucket key tr') \/
   (exists e tr', stage_fails isprintable cfg world event tr e tr')) /\
  (forall bucket key output_key,
     success_envelope isprintable cfg bucket key output_key =
     VDict [(py "statusCode", VInt 200);
            (py "body",
             VStr (json_dumps
               (VDict [(py "message", VStr (py "Summary generated successfully"));
                       (py "input_file",
                        VStr (py "s3://" ++ py_str isprintable bucket ++ py "/" ++ key));
                       (py "output_file",
                        VStr (py "s3://" ++ OUTPUT_BUCKET cfg ++ py "/" ++ output_key))])))]) /\
  (forall e,
     error_envelope e =
     VDict [(py "statusCode", VInt 500);
            (py "body",
             VStr (json_dumps
               (VDict [(py "message", VStr (py "Error processing file"));
                       (py "error", VStr (exc_text e))])))]) /\
  (forall e,
     plain_text (exc_text e) = true ->
     envelope_body (error_envelope e) =
     Some (VStr (flat_json [(py "message", py "Error processing file");
                            (py "error", exc_text e)]))) /\
  (forall bucket key output_key,
     plain_text (py "s3://" ++ bucket ++ py "/" ++ key) = true ->
     plain_text (py "s3://" ++ OUTPUT_BUCKET cfg ++ py "/" ++ output_key) = true ->
     envelope_body (success_envelope isprintable cfg (VStr bucket) key output_key) =
     Some (VStr (flat_json
                   [(py "message", py "Summary generated successfully");
                    (py "input_file", py "s3://" ++ bucket ++ py "/" ++ key);
                    (py "output_file",
                     py "s3://" ++ OUTPUT_BUCKET cfg ++ py "/" ++ output_key)]))).
Proof.
  intros Hdepth.
  assert (Hok : forall bucket key tr',
             stages_succeed isprintable cfg world event tr bucket key tr' ->
             handler event tr =
             (Returned (success_envelope isprintable cfg bucket key
                          (generate_output_key key)), tr')).
  { intros bucket key tr' H. rewrite lambda_handler_catches by exact Hdepth.
    now rewrite (handler_try_succeeds _ _ _ _ _ H). }
  assert (Hko : forall e tr',
             stage_fails isprintable cfg world event tr e tr' ->
             handler event tr = (Returned (error_envelope e), tr')).
  { intros e tr' H. rewrite lambda_handler_catches by exact Hdepth.
    now rewrite (handler_try_fails _ _ _ _ H). }
  pose proof (stages_exhaustive event tr) as Hcases.
  split; [| split; [exact Hok | split; [exact Hko | split; [exact Hcases |]]]].
  { destruct Hcases as [(bucket & key & tr' & H) | (e & tr' & H)].
    - eexists _, tr'. exact (Hok _ _ _ H).
    - eexists _, tr'. exact (Hko _ _ H). }
  split; [reflexivity |]. split; [reflexivity |]. split.
  - intros e Hplain.
    change (envelope_body (error_envelope e))
      with (Some (VStr (json_dumps
                          (flat_object [(py "message", py "Error processing file");
                                        (py "error", exc_text e)])))).
    rewrite json_dumps_flat_object; [reflexivity |].
    cbn [plain_fields forallb fst snd]. now rewrite Hplain.
  - intros bucket key output_key Hin Hout.
    change (envelope_body (success_envelope isprintable cfg (VStr bucket) key output_key))
      with (Some (VStr (json_dumps
                          (flat_object
                             [(py "message", py "Summary generated successfully");
                              (py "input_file", py "s3://" ++ bucket ++ py "/" ++ key);
                              (py "output_file",
                               py "s3://" ++ OUTPUT_BUCKET cfg ++ py "/" ++ output_key)])))).
    rewrite json_dumps_flat_object; [reflexivity |].
    cbn [plain_fields forallb fst snd]. now rewrite Hin, Hout.
Qed.

End Orchestrator.

(** ** The statements on sample runs *)

Lemma poll_runpod_job_times_out_when_running_sample :
  poll_runpod_job isprintable_ascii Sample.cfg (Sample.world [] Sample.always_running)
    Sample.job_id [] =
  (Raised (Exc TimeoutError (py "Polling for Runpod job job-1 timed out after 3 attempts.")),
   [HttpGet Sample.url Sample.headers; Sleep 10;
    HttpGet Sample.url Sample.headers; Sleep 10;
    HttpGet Sample.url Sample.headers; Sleep 10]).
Proof.
  refine (proj1 (poll_runpod_job_times_out_when_running isprintable_ascii Sample.cfg
                   (Sample.world [] Sample.always_running) Sample.job_id [] _ _ _)).
  - simpl. lia.
  - simpl. lia.
  - intros i _. reflexivity.
Defined.

Lemma poll_runpod_job_running_running_completed_sample :
  poll_runpod_job isprintable_ascii Sample.cfg
    (Sample.world [] Sample.running_running_completed) Sample.job_id [] =
  (Returned (VStr (py "X")),
   [HttpGet Sample.url Sample.headers; Sleep 10;
    HttpGet Sample.url Sample.headers; Sleep 10;
    HttpGet Sample.url Sample.headers]).
Proof.
  refine (proj1 (poll_runpod_job_running_running_completed isprintable_ascii Sample.cfg
                   (Sample.world [] Sample.running_running_completed) Sample.job_id []
                   Sample.running Sample.running
                   (Sample.completed (VDict [(py "text", VStr (py "X"))])) (py "X")
                   _ _ _ _ _ _ _ _ _)); try reflexivity; simpl; lia.
Defined.

Lemma poll_runpod_job_failed_raises_sample :
  poll_runpod_job isprintable_ascii Sample.cfg (Sample.world [] Sample.fails_at_once)
    Sample.job_id [] =
  (Raised (Exc Exception (py "Runpod job failed: boom")),
   [HttpGet Sample.url Sample.headers]).
Proof.
  refine (proj1 (poll_runpod_job_failed_raises isprintable_ascii Sample.cfg
                   (Sample.world [] Sample.fails_at_once) Sample.job_id 0 []
                   Sample.failed _ _ _ _ _)); try reflexivity.
  - simpl. lia.
  - intros H. inversion H.
  - intros j H. inversion H.
Defined.

Lemma poll_runpod_job_completed_output_sample :
  poll_runpod_job isprintable_ascii Sample.cfg
    (Sample.world [] (Sample.completes_with (VDict [(py "text", VStr (py "X"))])))
    Sample.job_id [] =
  (Returned (VStr (py "X")), [HttpGet Sample.url Sample.headers]) /\
  poll_runpod_job isprintable_ascii Sample.cfg
    (Sample.world [] (Sample.completes_with (VStr (py "Hello!")))) Sample.job_id [] =
  (Returned (VStr (py "Hello!")), [HttpGet Sample.url Sample.headers]) /\
  poll_runpod_job isprintable_ascii Sample.cfg
    (Sample.world []
       (Sample.completes_with
          (VDict [(py "tokens", VInt 7); (py "done", VBool true);
                  (py "tags", VList [VStr (py "a"); VNone])])))
    Sample.job_id [] =
  (Returned (VStr (py "{" ++ quoted (py "tokens") ++ py ": 7, " ++
                   quoted (py "done") ++ py ": true, " ++
                   quoted (py "tags") ++ py ": [" ++ quoted (py "a") ++ py ", null]}")),
   [HttpGet Sample.url Sample.headers]) /\
  poll_runpod_job isprintable_ascii Sample.cfg
    (Sample.world []
       (Sample.completes_with
          (VDict [(py "summary", VStr (py "Hello!")); (py "model", VStr (py "vllm"))])))
    Sample.job_id [] =
  (Returned (VStr (py "{" ++ quoted (py "summary") ++ py ": " ++ quoted (py "Hello!") ++
                   py ", " ++ quoted (py "model") ++ py ": " ++ quoted (py "vllm") ++
                   py "}")),
   [HttpGet Sample.url Sample.headers]).
Proof.
  assert (Hbudget : (0 < Z.to_nat (MAX_POLLING_ATTEMPTS Sample.cfg))%nat) by (simpl; lia).
  assert (Hfirst : (0 < 0)%nat -> 0 <= POLLING_INTERVAL Sample.cfg) by (intros H; inversion H).
  split; [| split; [| split]].
  - refine (proj1 (poll_runpod_job_completed_output isprintable_ascii Sample.cfg
                     (Sample.world [] (Sample.completes_with _)) Sample.job_id 0 []
                     (Sample.completed _) Hbudget Hfirst _ eq_refl eq_refl)
              [(py "text", VStr (py "X"))] (VStr (py "X")) eq_refl eq_refl).
    intros j H. inversion H.
  - refine (proj1 (proj2 (poll_runpod_job_completed_output isprintable_ascii Sample.cfg
                     (Sample.world [] (Sample.completes_with _)) Sample.job_id 0 []
                     (Sample.completed _) Hbudget Hfirst _ eq_refl eq_refl))
              (py "Hello!") eq_refl).
    intros j H. inversion H.
  - refine (proj1 (proj2 (proj2
              (poll_runpod_job_completed_output isprintable_ascii Sample.cfg
                 (Sample.world [] (Sample.completes_with _)) Sample.job_id 0 []
                 (Sample.completed _) Hbudget Hfirst _ eq_refl eq_refl)))
              [(py "tokens", VInt 7); (py "done", VBool true);
               (py "tags", VList [VStr (py "a"); VNone])] eq_refl eq_refl).
    intros j H. inversion H.
  - refine (proj2 (proj2 (proj2
              (poll_runpod_job_completed_output isprintable_ascii Sample.cfg
                 (Sample.world [] (Sample.completes_with _)) Sample.job_id 0 []
                 (Sample.completed _) Hbudget Hfirst _ eq_refl eq_refl)))
              [(py "summary", py "Hello!"); (py "model", py "vllm")]
              eq_refl eq_refl eq_refl).
    intros j H. inversion H.
Defined.

Lemma poll_runpod_job_transport_failures_sample :
  poll_runpod_job isprintable_ascii Sample.cfg (Sample.world [] Sample.unreachable)
    Sample.job_id [] =
  (Raised (Exc TimeoutError (py "Polling for Runpod job job-1 timed out after 3 attempts.")),
   [HttpGet Sample.url Sample.headers; Sleep 10;
    HttpGet Sample.url Sample.headers; Sleep 10;
    HttpGet Sample.url Sample.headers; Sleep 10]).
Proof.
  refine (proj1 (proj2 (poll_runpod_job_transport_failures isprintable_ascii Sample.cfg
                          (Sample.world [] Sample.unreachable) Sample.job_id [] _) _)).
  - simpl. lia.
  - intros i _. reflexivity.
Defined.

Lemma poll_runpod_job_completed_odd_output_sample :
  poll_runpod_job isprintable_ascii Sample.cfg
    (Sample.world [] (Sample.completes_with (VList [VStr (py "X")]))) Sample.job_id [] =
  (Raised (Exc AttributeError (py "'list' object has no attribute 'get'")),
   [HttpGet Sample.url Sample.headers]) /\
  poll_runpod_job isprintable_ascii Sample.cfg
    (Sample.world [] (Sample.completes_with VNone)) Sample.job_id [] =
  (Raised (Exc AttributeError (py "'NoneType' object has no attribute 'get'")),
   [HttpGet Sample.url Sample.headers]) /\
  poll_runpod_job isprintable_ascii Sample.cfg
    (Sample.world [] Sample.completes_without_output) Sample.job_id [] =
  (Returned (VStr (py "{}")), [HttpGet Sample.url Sample.headers]).
Proof.
  assert (Hbudget : (0 < Z.to_nat (MAX_POLLING_ATTEMPTS Sample.cfg))%nat) by (simpl; lia).
  assert (Hfirst : (0 < 0)%nat -> 0 <= POLLING_INTERVAL Sample.cfg) by (intros H; inversion H).
  split; [| split].
  - refine (proj1 (poll_runpod_job_completed_odd_output isprintable_ascii Sample.cfg
                     (Sample.world [] (Sample.completes_with _)) Sample.job_id 0 []
                     (Sample.completed _) Hbudget Hfirst _ eq_refl eq_refl)
              (VList [VStr (py "X")]) eq_refl _ _).
    + intros j H. inversion H.
    + discriminate.
    + discriminate.
  - refine (proj1 (poll_runpod_job_completed_odd_output isprintable_ascii Sample.cfg
                     (Sample.world [] (Sample.completes_with _)) Sample.job_id 0 []
                     (Sample.completed _) Hbudget Hfirst _ eq_refl eq_refl)
              VNone eq_refl _ _).
    + intros j H. inversion H.
    + discriminate.
    + discriminate.
  - refine (proj2 (poll_runpod_job_completed_odd_output isprintable_ascii Sample.cfg
                     (Sample.world [] Sample.completes_without_output) Sample.job_id 0 []
                     [(py "status", VStr (py "COMPLETED"))] Hbudget Hfirst _ eq_refl eq_refl)
              eq_refl).
    intros j H. inversion H.
Defined.

Lemma parse_s3_event_first_record_sample :
  parse_s3_event isprintable_ascii Sample.event [] =
  (Returned (VStr (py "my+bucket"), py "talks/my talk+1.txt"), []).
Proof.
  unfold Sample.event.
  refine (proj1 (parse_s3_event_first_record isprintable_ascii _ _ _ _ _ _
                   (py "my+bucket") (py "talks/my+talk%2B1.txt") [] _ _ _ _ _ _));
    reflexivity.
Defined.

(** The bucket name of the sample event has a plus sign; URL-decoding would
    turn it into a space, and [parse_s3_event] returns it as it is. *)
Lemma parse_s3_event_bucket_name_not_decoded :
  parse_s3_event isprintable_ascii Sample.event [] =
    (Returned (VStr (py "my+bucket"), py "talks/my talk+1.txt"), []) /\
  unquote_plus (py "my+bucket") = py "my bucket" /\
  parse_s3_event isprintable_ascii Sample.event [] <>
    (Returned (VStr (unquote_plus (py "my+bucket")),
               unquote_plus (py "talks/my+talk%2B1.txt")), []).
Proof.
  split; [reflexivity | split; [reflexivity |]].
  intros H. vm_compute in H. discriminate H.
Qed.

Lemma lambda_handler_blank_transcript_sample :
  lambda_handler isprintable_ascii Sample.cfg (Sample.world Sample.blank Sample.always_running)
    Sample.spare_depth Sample.event [] =
  (Returned
     (VDict [(py "statusCode", VInt 500);
             (py "body",
              VStr (py "{" ++ quoted (py "message") ++ py ": " ++
                    quoted (py "Error processing file") ++ py ", " ++
                    quoted (py "error") ++ py ": " ++
                    quoted (py "Transcript file is empty.") ++ py "}"))]),
   [S3GetObject (VStr (py "my+bucket")) (py "talks/my talk+1.txt")]).
Proof.
  refine (proj1 (proj2 (lambda_handler_blank_transcript isprintable_ascii Sample.cfg
                          (Sample.world Sample.blank Sample.always_running)
                          Sample.spare_depth
                          Sample.event [] (VStr (py "my+bucket")) (py "talks/my talk+1.txt")
                          Sample.blank eq_refl eq_refl eq_refl)) _).
  apply Nat.leb_le. reflexivity.
Defined.

Lemma lambda_handler_returns_envelope_sample :
  (exists tr,
     lambda_handler isprintable_ascii Sample.cfg
       (Sample.world (py "hello world") (Sample.completes_with (VStr (py "Hello!"))))
       Sample.spare_depth Sample.event [] =
     (Returned
        (VDict [(py "statusCode", VInt 200);
                (py "body",
                 VStr (py "{" ++ quoted (py "message") ++ py ": " ++
                       quoted (py "Summary generated successfully") ++ py ", " ++
                       quoted (py "input_file") ++ py ": " ++
                       quoted (py "s3://my+bucket/talks/my talk+1.txt") ++ py ", " ++
                       quoted (py "output_file") ++ py ": " ++
                       quoted (py "s3://summaries/summaries/talks/my talk+1_summary.txt") ++
                       py "}"))]),
      tr) /\
     In (S3PutObject (py "summaries") (py "summaries/talks/my talk+1_summary.txt")
           (py "Hello!") (py "text/plain")) tr) /\
  lambda_handler isprintable_ascii Sample.cfg
    (Sample.world (py "hello world") Sample.unreachable)
    Sample.spare_depth Sample.event [] =
  (Returned
     (VDict [(py "statusCode", VInt 500);
             (py "body",
              VStr (py "{" ++ quoted (py "message") ++ py ": " ++
                    quoted (py "Error processing file") ++ py ", " ++
                    quoted (py "error") ++ py ": " ++
                    quoted (py "Polling for Runpod job job-1 timed out after 3 attempts.") ++
                    py "}"))]),
   [S3GetObject (VStr (py "my+bucket")) (py "talks/my talk+1.txt");
    HttpPost Cases.run_url Sample.headers (Cases.payload_of (py "hello world"));
    HttpGet Sample.url Sample.headers; Sleep 10;
    HttpGet Sample.url Sample.headers; Sleep 10;
    HttpGet Sample.url Sample.headers; Sleep 10]).
Proof.
  assert (Hdepth : (json_depth Sample.event <= S Sample.spare_depth)%nat).
  { apply Nat.leb_le. reflexivity. }
  split.
  - eexists. split.
    + refine (proj1 (proj2 (lambda_handler_returns_envelope isprintable_ascii Sample.cfg
                              (Sample.world (py "hello world")
                                 (Sample.completes_with (VStr (py "Hello!"))))
                              Sample.spare_depth Sample.event [] Hdepth))
                (VStr (py "my+bucket")) (py "talks/my talk+1.txt") _ _).
      eapply all_stages;
        [ reflexivity | reflexivity | vm_compute; discriminate
        | vm_compute; reflexivity | vm_compute; reflexivity | reflexivity
        | vm_compute; reflexivity ].
    + vm_compute. tauto.
  - refine (proj1 (proj2 (proj2 (lambda_handler_returns_envelope isprintable_ascii
                                   Sample.cfg
                                   (Sample.world (py "hello world") Sample.unreachable)
                                   Sample.spare_depth Sample.event [] Hdepth)))
              (Exc TimeoutError
                 (py "Polling for Runpod job job-1 timed out after 3 attempts."))
              _ _).
    eapply poll_fails;
      [ split; [reflexivity | split; [reflexivity | vm_compute; discriminate]]
      | vm_compute; reflexivity | vm_compute; reflexivity ].
Defined.

(** C9.  [lambda_handler] does not return an envelope for every event: an
    S3 notification nested 1000 deep, with the room the recursion limit of
    1000 leaves, makes the [json.dumps(event)] of the first statement raise
    [RecursionError] outside the [try], and the exception leaves the handler
    before any call is made.  The [try] block alone fails on this event with
    a [TypeError], which the [except] clause would have turned into a 500
    envelope. *)
Theorem lambda_handler_deep_event_escapes :
  lambda_handler isprintable_ascii Sample.cfg
    (Sample.world (py "hello world") (Sample.completes_with (VStr (py "Hello!"))))
    Sample.spare_depth Sample.deep_event [] =
  (Raised (Exc (OtherError (py "RecursionError"))
             (py "maximum recursion depth exceeded while encoding a JSON object")),
   []) /\
  json_depth Sample.deep_event = 1002%nat /\
  handler_try isprintable_ascii Sample.cfg
    (Sample.world (py "hello world") (Sample.completes_with (VStr (py "Hello!"))))
    Sample.deep_event [] =
  (Raised (Exc TypeError (py "list indices must be integers or slices, not str")), []).
Proof.
  split; [| split].
  - apply lambda_handler_escapes. apply Nat.ltb_lt. vm_compute. reflexivity.
  - vm_compute. reflexivity.
  - vm_compute. reflexivity.
Qed.


(** * Further properties *)

Lemma eq_str_true (v : value) (s : str) : eq_str v s = true -> v = VStr s.
Proof.
  destruct v; simpl; try discriminate.
  unfold str_eqb. destruct (list_eq_dec N.eq_dec s0 s); [congruence | discriminate].
Qed.

(** The calls of [i] rounds, followed or not by one more request. *)
Lemma polling_trace_bounds url headers secs i budget (last : bool) :
  (if last then i < budget else i <= budget)%nat ->
  let ext := polling_rounds url headers secs i ++
             (if last then [HttpGet url headers] else []) in
  Forall (fun ev => ev = HttpGet url headers \/ ev = Sleep secs) ext /\
  (count_gets ext <= budget)%nat /\
  (count_sleeps ext <= count_gets ext)%nat /\
  (count_gets ext <= S (count_sleeps ext))%nat /\
  (forall first rest, ext = first :: rest -> first = HttpGet url headers).
Proof.
  intros Hi ext.
  assert (Hrounds : Forall (fun ev => ev = HttpGet url headers \/ ev = Sleep secs)
                      (polling_rounds url headers secs i)).
  { clear. induction i as [|i IH]; [constructor |].
    simpl. constructor; [now left |]. constructor; [now right | exact IH]. }
  assert (Hgets : count_gets ext = (i + if last then 1 else 0)%nat).
  { unfold ext. rewrite count_gets_app, count_gets_rounds. now destruct last. }
  assert (Hsleeps : count_sleeps ext = i).
  { unfold ext. rewrite count_sleeps_app, count_sleeps_rounds.
    destruct last; unfold count_sleeps; simpl; lia. }
  rewrite Hgets, Hsleeps.
  split; [| split; [| split; [| split]]].
  - unfold ext. apply Forall_app. split; [exact Hrounds |].
    destruct last; repeat constructor.
  - destruct last; lia.
  - destruct last; lia.
  - destruct last; lia.
  - intros first rest Heq. unfold ext in Heq.
    destruct i; destruct last; simpl in Heq; inversion Heq; reflexivity.
Qed.

(** ** The polling loop, for every world *)

Section PollingShape.

Variable isprintable : codepoint -> bool.
Variable cfg : Config.
Variable world : World.
Variable job_id : value.

Let url := status_url isprintable cfg job_id.
Let headers := auth_headers cfg.
Let secs := POLLING_INTERVAL cfg.
Let reply := status_reply isprintable cfg world job_id.
Let attempt := poll_attempt isprintable cfg world job_id headers.
Let rounds := polling_rounds url headers secs.
Let budget := Z.to_nat (MAX_POLLING_ATTEMPTS cfg).
Let timed_out : Eff value := reraise (polling_timed_out isprintable cfg job_id).
Let request := HttpGet url headers.

(** What one attempt can do: go on after a request and a sleep, or end the
    loop after the request alone. *)
Lemma poll_attempt_cases a tr :
  match attempt a tr with
  | (Returned None, tr') =>
      tr' = tr ++ [request; Sleep secs] /\ 0 <= secs /\
      (non_terminal (reply (count_gets tr)) = true \/
       transport_failure (reply (count_gets tr)) = true)
  | (Returned (Some v), tr') =>
      tr' = tr ++ [request] /\
      exists d, reply (count_gets tr) = Returned (VDict d) /\
                dict_lookup (py "status") d = Some (VStr (py "COMPLETED")) /\
                completed_result (output_of d) = Returned v
  | (Raised e, tr') => tr' = tr ++ [request]
  end.
Proof.
  unfold attempt, poll_attempt, try_except, poll_try, bind, requests_get_json.
  fold url. unfold reply, status_reply. fold url headers. fold request.
  destruct (requests_get world (count_gets tr) url headers) as [result|e] eqn:Hreply.
  - unfold lift, get_method.
    destruct result as [ | | | | | |d]; try reflexivity.
    unfold non_terminal, status_of.
    remember (match dict_lookup (py "status") d with
              | Some v => v
              | None => VStr (py "")
              end) as st eqn:Hst.
    assert (Hlook : match dict_lookup (py "status") d with
                    | Some v0 => Returned v0
                    | None => Returned (VStr (py ""))
                    end = Returned st).
    { rewrite Hst. destruct (dict_lookup (py "status") d); reflexivity. }
    rewrite Hlook. clear Hlook.
    destruct (eq_str st (py "COMPLETED")) eqn:Hc.
    + assert (Hd : dict_lookup (py "status") d = Some (VStr (py "COMPLETED"))).
      { apply eq_str_true in Hc. rewrite Hc in Hst.
        destruct (dict_lookup (py "status") d); [congruence | discriminate]. }
      destruct (dict_lookup (py "output") d) as [[ | | | | | |o]|] eqn:Ho;
        try reflexivity.
      * split; [reflexivity |]. exists d. split; [reflexivity | split; [exact Hd |]].
        unfold output_of, completed_result. now rewrite Ho.
      * unfold py_in, dict_has, getitem, lift, bind, ret.
        destruct (dict_lookup (py "text") o) eqn:Ht;
          (split; [reflexivity |]; exists d; split; [reflexivity | split; [exact Hd |]];
           unfold output_of, completed_result; now rewrite Ho, Ht).
      * split; [reflexivity |]. exists d. split; [reflexivity | split; [exact Hd |]].
        unfold output_of, completed_result. now rewrite Ho.
    + destruct (eq_str st (py "FAILED")) eqn:Hf.
      { destruct (dict_lookup (py "error") d); reflexivity. }
      unfold time_sleep. fold secs.
      destruct (Z.ltb_spec secs 0); [reflexivity |].
      cbn. rewrite <- app_assoc. repeat split; auto.
  - change (existsb (isinstance e) [RequestException])
      with (isinstance e RequestException || false).
    rewrite orb_false_r. unfold transport_failure.
    destruct (isinstance e RequestException) eqn:He; [| reflexivity].
    unfold time_sleep. fold secs.
    destruct (Z.ltb_spec secs 0); [cbv beta iota; reflexivity |].
    cbn. rewrite <- app_assoc. repeat split; auto.
Qed.

(** The loop stops at its first attempt that is not retried, or runs out of
    attempts. *)
Lemma for_range_cases n :
  forall a tr,
    (exists i,
       (i < n)%nat /\
       (forall j, (j < i)%nat ->
          non_terminal (reply (count_gets tr + j)) = true \/
          transport_failure (reply (count_gets tr + j)) = true) /\
       match attempt (a + i) (tr ++ rounds i) with
       | (Returned (Some v), tr') =>
           for_range a n attempt timed_out tr = (Returned v, tr')
       | (Raised e, tr') => for_range a n attempt timed_out tr = (Raised e, tr')
       | (Returned None, _) => False
       end) \/
    ((forall j, (j < n)%nat ->
        non_terminal (reply (count_gets tr + j)) = true \/
        transport_failure (reply (count_gets tr + j)) = true) /\
     for_range a n attempt timed_out tr =
       (Raised (polling_timed_out isprintable cfg job_id), tr ++ rounds n)).
Proof.
  induction n as [|n IH]; intros a tr.
  - right. split; [intros j Hj; inversion Hj |].
    simpl. now rewrite app_nil_r.
  - pose proof (poll_attempt_cases a tr) as Hcase.
    destruct (attempt a tr) as [[[v|]|e] tr1] eqn:Hattempt.
    + left. exists 0%nat. split; [lia |]. split; [intros j Hj; inversion Hj |].
      simpl rounds. rewrite Nat.add_0_r, app_nil_r, Hattempt.
      simpl. unfold bind. now rewrite Hattempt.
    + destruct Hcase as (-> & Hsecs & Hretried).
      assert (Hnext : for_range a (S n) attempt timed_out tr =
                      for_range (S a) n attempt timed_out (tr ++ [request; Sleep secs])).
      { simpl. unfold bind. now rewrite Hattempt. }
      assert (Hcount : forall j,
                (count_gets (tr ++ [request; Sleep secs]) + j)%nat
                = (count_gets tr + S j)%nat).
      { intros j. rewrite count_gets_app. unfold count_gets at 2. simpl. lia. }
      assert (Happ : forall k,
                (tr ++ [request; Sleep secs]) ++ rounds k = tr ++ rounds (S k)).
      { intros k. now rewrite <- app_assoc. }
      destruct (IH (S a) (tr ++ [request; Sleep secs]))
        as [(i & Hi & Hbefore & Hstop) | (Hall & Hend)].
      * left. exists (S i). split; [lia |]. split.
        -- intros [|j] Hj.
           ++ now rewrite Nat.add_0_r.
           ++ rewrite <- Hcount. apply Hbefore. lia.
        -- rewrite Happ in Hstop.
           replace (a + S i)%nat with (S a + i)%nat by lia.
           rewrite Hnext. exact Hstop.
      * right. split.
        -- intros [|j] Hj.
           ++ now rewrite Nat.add_0_r.
           ++ rewrite <- Hcount. apply Hall. lia.
        -- rewrite Hnext, Hend. now rewrite Happ.
    + left. exists 0%nat. split; [lia |]. split; [intros j Hj; inversion Hj |].
      simpl rounds. rewrite Nat.add_0_r, app_nil_r, Hattempt.
      simpl. unfold bind. now rewrite Hattempt.
Qed.

(** The trace of a run: some rounds, then at most one more request. *)
Lemma poll_runpod_job_extension tr :
  exists i,
    (snd (poll_runpod_job isprintable cfg world job_id tr) = tr ++ rounds i /\
     i = budget) \/
    (snd (poll_runpod_job isprintable cfg world job_id tr) = tr ++ rounds i ++ [request] /\
     (i < budget)%nat).
Proof.
  unfold poll_runpod_job. fold headers attempt budget timed_out.
  destruct (for_range_cases budget 0 tr) as [(i & Hi & _ & Hstop) | (_ & Hend)].
  - exists i. right. split; [| exact Hi].
    pose proof (poll_attempt_cases (0 + i) (tr ++ rounds i)) as Hcase.
    destruct (attempt (0 + i) (tr ++ rounds i)) as [[[v|]|e] tr'].
    + destruct Hcase as [-> _]. rewrite Hstop. simpl. now rewrite <- app_assoc.
    + contradiction.
    + subst tr'. rewrite Hstop. simpl. now rewrite <- app_assoc.
  - exists budget. left. now rewrite Hend.
Qed.

(** X1.  Whatever the job API answers, [poll_runpod_job] extends the trace
    by status requests and sleeps of the configured interval only; it makes
    no more status requests than [MAX_POLLING_ATTEMPTS], never sleeps before
    its first request, and never sleeps more often than it has asked. *)
Theorem poll_runpod_job_trace_bounded tr :
  exists ext,
    snd (poll_runpod_job isprintable cfg world job_id tr) = tr ++ ext /\
    Forall (fun ev => ev = HttpGet url headers \/ ev = Sleep secs) ext /\
    (count_gets ext <= budget)%nat /\
    (count_sleeps ext <= count_gets ext)%nat /\
    (count_gets ext <= S (count_sleeps ext))%nat /\
    (forall first rest, ext = first :: rest -> first = HttpGet url headers).
Proof.
  destruct (poll_runpod_job_extension tr) as [i [[Hext Hi] | [Hext Hi]]].
  - exists (rounds i ++ []). rewrite app_nil_r at 1. split; [exact Hext |].
    apply (polling_trace_bounds url headers secs i budget false). lia.
  - exists (rounds i ++ [request]). split; [exact Hext |].
    apply (polling_trace_bounds url headers secs i budget true). exact Hi.
Qed.

(** A run that returns has stopped at a request within the budget. *)
Lemma poll_runpod_job_returned tr v tr' :
  poll_runpod_job isprintable cfg world job_id tr = (Returned v, tr') ->
  exists i, (i < budget)%nat /\ tr' = tr ++ rounds i ++ [request].
Proof.
  unfold poll_runpod_job. fold headers attempt budget timed_out. intros Hrun.
  destruct (for_range_cases budget 0 tr) as [(i & Hi & _ & Hstop) | (_ & Hend)].
  - pose proof (poll_attempt_cases (0 + i) (tr ++ rounds i)) as Hcase.
    exists i. split; [exact Hi |].
    destruct (attempt (0 + i) (tr ++ rounds i)) as [[[w|]|e] tr1].
    + destruct Hcase as [-> _]. rewrite Hstop in Hrun. inversion Hrun.
      now rewrite <- app_assoc.
    + contradiction.
    + rewrite Hstop in Hrun. discriminate Hrun.
  - rewrite Hend in Hrun. discriminate Hrun.
Qed.

(** X2.  [poll_runpod_job] returns a value only for a job that reported
    [COMPLETED]: when it returns [v], some status request within the budget
    was answered by an object with status [COMPLETED] whose output yields [v],
    every earlier attempt was retried, and the trace ends with that request. *)
Theorem poll_runpod_job_returns_only_completed tr v tr' :
  poll_runpod_job isprintable cfg world job_id tr = (Returned v, tr') ->
  exists i d,
    (i < budget)%nat /\
    (forall j, (j < i)%nat ->
       non_terminal (reply (count_gets tr + j)) = true \/
       transport_failure (reply (count_gets tr + j)) = true) /\
    reply (count_gets tr + i) = Returned (VDict d) /\
    dict_lookup (py "status") d = Some (VStr (py "COMPLETED")) /\
    completed_result (output_of d) = Returned v /\
    tr' = tr ++ rounds i ++ [HttpGet url headers].
Proof.
  unfold poll_runpod_job. fold headers attempt budget timed_out. intros Hrun.
  destruct (for_range_cases budget 0 tr) as [(i & Hi & Hbefore & Hstop) | (_ & Hend)].
  - pose proof (poll_attempt_cases (0 + i) (tr ++ rounds i)) as Hcase.
    destruct (attempt (0 + i) (tr ++ rounds i)) as [[[w|]|e] tr1].
    + destruct Hcase as (-> & d & Hreply & Hstatus & Hout).
      rewrite Hstop in Hrun. inversion Hrun; subst w tr'.
      exists i, d. repeat split; trivial.
      * rewrite <- Hreply. f_equal. rewrite count_gets_app. unfold rounds.
        now rewrite count_gets_rounds.
      * now rewrite <- app_assoc.
    + contradiction.
    + rewrite Hstop in Hrun. discriminate Hrun.
  - rewrite Hend in Hrun. discriminate Hrun.
Qed.

(** X3.  With an attempt budget of zero or less, [poll_runpod_job] raises
    the polling time-out at once, without a single status request. *)
Theorem poll_runpod_job_without_budget tr :
  MAX_POLLING_ATTEMPTS cfg <= 0 ->
  poll_runpod_job isprintable cfg world job_id tr =
  (Raised (polling_timed_out isprintable cfg job_id), tr).
Proof.
  intros Hmax. unfold poll_runpod_job.
  replace (Z.to_nat (MAX_POLLING_ATTEMPTS cfg)) with 0%nat by lia.
  reflexivity.
Qed.

Lemma poll_runpod_job_stops_at i tr (r : outcome (option value)) :
  (i < budget)%nat ->
  ((0 < i)%nat -> 0 <= secs) ->
  (forall j, (j < i)%nat ->
     non_terminal (reply (count_gets tr + j)) = true \/
     transport_failure (reply (count_gets tr + j)) = true) ->
  r <> Returned None ->
  attempt i (tr ++ rounds i) = (r, tr ++ rounds i ++ [request]) ->
  poll_runpod_job isprintable cfg world job_id tr =
  (match r with
   | Returned (Some v) => Returned v
   | Returned None => Raised (polling_timed_out isprintable cfg job_id)
   | Raised e => Raised e
   end, tr ++ rounds i ++ [request]).
Proof.
  intros Hi Hsecs Hre Hr Hattempt.
  rewrite (poll_runpod_job_reaches isprintable cfg world job_id i tr Hi Hsecs Hre).
  fold headers url secs. fold attempt rounds. rewrite Hattempt.
  destruct r as [[v|]|e]; [reflexivity | contradiction | reflexivity].
Qed.

(** X4.  A status answer that is valid JSON but not an object (a list, a
    string, a number, [null]) is not retried: at the attempt that receives it
    [poll_runpod_job] raises the [AttributeError] of the missing [get] method,
    without sleeping and without another request. *)
Theorem poll_runpod_job_answer_not_object i tr answer :
  (i < budget)%nat ->
  ((0 < i)%nat -> 0 <= POLLING_INTERVAL cfg) ->
  (forall j, (j < i)%nat ->
     non_terminal (reply (count_gets tr + j)) = true \/
     transport_failure (reply (count_gets tr + j)) = true) ->
  reply (count_gets tr + i) = Returned answer ->
  (forall d, answer <> VDict d) ->
  poll_runpod_job isprintable cfg world job_id tr =
  (Raised (Exc AttributeError
             (py "'" ++ type_name answer ++ py "' object has no attribute 'get'")),
   tr ++ rounds i ++ [HttpGet url headers]).
Proof.
  intros Hi Hsecs Hre Hreply Hshape.
  apply (poll_runpod_job_stops_at i tr (Raised _)); trivial; [discriminate |].
  unfold attempt, poll_attempt, try_except, poll_try, bind, requests_get_json.
  fold url. unfold reply, status_reply in Hreply. fold url headers in Hreply.
  rewrite count_gets_app. unfold rounds at 1. rewrite count_gets_rounds, Hreply.
  fold request. rewrite <- app_assoc.
  destruct answer; try reflexivity. now destruct (Hshape d).
Qed.

(** X5.  Only a [RequestException] of the status request is retried: any
    other exception it raises leaves [poll_runpod_job] unchanged at that
    attempt, with no sleep and no further request. *)
Theorem poll_runpod_job_other_exception i tr e :
  (i < budget)%nat ->
  ((0 < i)%nat -> 0 <= POLLING_INTERVAL cfg) ->
  (forall j, (j < i)%nat ->
     non_terminal (reply (count_gets tr + j)) = true \/
     transport_failure (reply (count_gets tr + j)) = true) ->
  reply (count_gets tr + i) = Raised e ->
  isinstance e RequestException = false ->
  poll_runpod_job isprintable cfg world job_id tr =
  (Raised e, tr ++ rounds i ++ [HttpGet url headers]).
Proof.
  intros Hi Hsecs Hre Hreply Hclass.
  apply (poll_runpod_job_stops_at i tr (Raised e)); trivial; [discriminate |].
  unfold attempt, poll_attempt, try_except, poll_try, bind, requests_get_json.
  fold url. unfold reply, status_reply in Hreply. fold url headers in Hreply.
  rewrite count_gets_app. unfold rounds at 1. rewrite count_gets_rounds, Hreply.
  fold request. rewrite <- app_assoc.
  change (existsb (isinstance e) [RequestException])
    with (isinstance e RequestException || false).
  now rewrite Hclass.
Qed.

(** X6.  With a negative [POLLING_INTERVAL] the first attempt that would be
    retried ends the run instead: [time.sleep] raises its [ValueError], which
    leaves [poll_runpod_job] after a single status request and no sleep. *)
Theorem poll_runpod_job_negative_interval tr :
  1 <= MAX_POLLING_ATTEMPTS cfg ->
  POLLING_INTERVAL cfg < 0 ->
  non_terminal (reply (count_gets tr)) = true \/
  transport_failure (reply (count_gets tr)) = true ->
  poll_runpod_job isprintable cfg world job_id tr =
  (Raised (Exc ValueError (py "sleep length must be non-negative")),
   tr ++ [HttpGet url headers]).
Proof.
  intros Hmax Hneg Hre.
  assert (Hsleep : forall t : trace,
            time_sleep (POLLING_INTERVAL cfg) t =
            (Raised (Exc ValueError (py "sleep length must be non-negative")), t)).
  { intros t. unfold time_sleep. destruct (Z.ltb_spec (POLLING_INTERVAL cfg) 0); [reflexivity | lia]. }
  change (tr ++ [HttpGet url headers]) with (tr ++ rounds 0 ++ [request]).
  apply (poll_runpod_job_stops_at 0 tr (Raised _)).
  - unfold budget. lia.
  - intros H. inversion H.
  - intros j H. inversion H.
  - discriminate.
  - simpl rounds. rewrite app_nil_r. simpl app.
    unfold attempt, poll_attempt, try_except, poll_try, bind, requests_get_json.
    fold url. unfold reply, status_reply in Hre. fold url headers in Hre.
    fold request.
    destruct (requests_get world (count_gets tr) url headers) as [[ | | | | | |d]|e];
      try (destruct Hre as [Hre | Hre]; discriminate Hre).
    + destruct Hre as [Hre | Hre]; [| discriminate Hre].
      simpl in Hre. apply andb_true_iff in Hre as [Hc Hf].
      apply negb_true_iff in Hc, Hf.
      unfold lift, get_method, status_of in *.
      destruct (dict_lookup (py "status") d); rewrite Hc, Hf, Hsleep; reflexivity.
    + destruct Hre as [Hre | Hre]; [discriminate Hre |].
      unfold transport_failure in Hre.
      change (existsb (isinstance e) [RequestException])
        with (isinstance e RequestException || false).
      rewrite Hre. simpl orb. cbv iota. rewrite Hsleep. reflexivity.
Qed.

End PollingShape.

(** ** Submitting the job *)

Section Submit.

Variable isprintable : codepoint -> bool.
Variable cfg : Config.
Variable world : World.

Let submit := submit_job_to_runpod isprintable cfg world.
Let post (text : str) : event := HttpPost (run_url cfg) (auth_headers cfg) (run_payload text).
Let answer (text : str) : outcome value :=
  requests_post world (run_url cfg) (auth_headers cfg) (run_payload text).

(** With both settings present, the submission is one request, whose answer
    decides the outcome. *)
Lemma submit_job_to_runpod_configured text tr :
  unset (RUNPOD_API_KEY cfg) = false ->
  unset (RUNPOD_API_ENDPOINT cfg) = false ->
  submit text tr =
  (match answer text with
   | Returned result =>
       match py_in (py "id") result with
       | Returned true => getitem isprintable result (Key (py "id"))
       | Returned false =>
           Raised (Exc ValueError
                     (py "No job ID returned from Runpod: " ++ py_str isprintable result))
       | Raised e => Raised e
       end
   | Raised e => Raised e
   end, tr ++ [post text]).
Proof.
  intros Hkey Hendpoint.
  unfold submit, submit_job_to_runpod. rewrite Hkey, Hendpoint.
  unfold try_except, bind, requests_post_json, lift.
  fold (run_url cfg). fold (run_payload text). fold (answer text). fold (post text).
  destruct (answer text) as [result|e].
  - destruct (py_in (py "id") result) as [[|]|e]; cbn [negb].
    + destruct (getitem isprintable result (Key (py "id"))) as [v|e]; [reflexivity |].
      now destruct (existsb (isinstance e) [RequestException]).
    + unfold raise. reflexivity.
    + now destruct (existsb (isinstance e) [RequestException]).
  - now destruct (existsb (isinstance e) [RequestException]).
Qed.

Lemma submit_job_to_runpod_no_key text tr :
  unset (RUNPOD_API_KEY cfg) = true ->
  submit text tr = (Raised (Exc ValueError (py "Runpod API key is not set.")), tr).
Proof. intros Hkey. unfold submit, submit_job_to_runpod. now rewrite Hkey. Qed.

Lemma submit_job_to_runpod_no_endpoint text tr :
  unset (RUNPOD_API_KEY cfg) = false ->
  unset (RUNPOD_API_ENDPOINT cfg) = true ->
  submit text tr = (Raised (Exc ValueError (py "Runpod API endpoint is not set.")), tr).
Proof.
  intros Hkey Hendpoint. unfold submit, submit_job_to_runpod. now rewrite Hkey, Hendpoint.
Qed.

(** X7.  [submit_job_to_runpod] checks its settings before it sends anything:
    without an API key (unset or empty) it raises the API-key error, and with
    a key but without an endpoint it raises the endpoint error; in both cases
    no request has been made. *)
Theorem submit_job_to_runpod_unconfigured text tr :
  (unset (RUNPOD_API_KEY cfg) = true ->
   submit text tr = (Raised (Exc ValueError (py "Runpod API key is not set.")), tr)) /\
  (unset (RUNPOD_API_KEY cfg) = false ->
   unset (RUNPOD_API_ENDPOINT cfg) = true ->
   submit text tr = (Raised (Exc ValueError (py "Runpod API endpoint is not set.")), tr)) /\
  (forall setting, unset setting = true <-> setting = None \/ setting = Some []).
Proof.
  repeat split.
  - apply submit_job_to_runpod_no_key.
  - apply submit_job_to_runpod_no_endpoint.
  - destruct setting as [[|c s]|]; simpl; intros H; auto; discriminate.
  - intros [-> | ->]; reflexivity.
Qed.

(** X8.  [submit_job_to_runpod] returns a job id exactly when both settings
    are present and the one request it sends, a POST of the prompt for the
    whole transcript to [<endpoint>/run], is answered by a JSON object with an
    [id] field, whose value it returns. *)
Theorem submit_job_to_runpod_returns_id text tr job tr' :
  submit text tr = (Returned job, tr') <->
  unset (RUNPOD_API_KEY cfg) = false /\
  unset (RUNPOD_API_ENDPOINT cfg) = false /\
  (exists d, answer text = Returned (VDict d) /\ dict_lookup (py "id") d = Some job) /\
  tr' = tr ++ [HttpPost (run_url cfg) (auth_headers cfg) (run_payload text)].
Proof.
  split.
  - intros Hrun.
    destruct (unset (RUNPOD_API_KEY cfg)) eqn:Hkey.
    { rewrite (submit_job_to_runpod_no_key text tr Hkey) in Hrun. discriminate Hrun. }
    destruct (unset (RUNPOD_API_ENDPOINT cfg)) eqn:Hendpoint.
    { rewrite (submit_job_to_runpod_no_endpoint text tr Hkey Hendpoint) in Hrun.
      discriminate Hrun. }
    rewrite (submit_job_to_runpod_configured text tr Hkey Hendpoint) in Hrun.
    inversion Hrun as [[Hout Htr]]. clear Hrun.
    repeat split; trivial.
    destruct (answer text) as [result|e]; [| discriminate Hout].
    destruct result as [ | | | | s|l|d]; try discriminate Hout.
    + simpl in Hout. destruct (contains_substring (py "id") s); discriminate Hout.
    + simpl in Hout. destruct (existsb (fun x => eq_str x (py "id")) l); discriminate Hout.
    + exists d. split; [reflexivity |].
      unfold py_in, dict_has, getitem in Hout.
      destruct (dict_lookup (py "id") d) as [v|]; [congruence | discriminate Hout].
  - intros (Hkey & Hendpoint & (d & Hanswer & Hid) & ->).
    rewrite (submit_job_to_runpod_configured text tr Hkey Hendpoint).
    rewrite Hanswer. unfold py_in, dict_has, getitem. now rewrite Hid.
Qed.

(** X9.  When the request of [submit_job_to_runpod] fails, whatever the
    exception, it reaches the caller unchanged after that single request. *)
Theorem submit_job_to_runpod_request_fails text tr e :
  unset (RUNPOD_API_KEY cfg) = false ->
  unset (RUNPOD_API_ENDPOINT cfg) = false ->
  answer text = Raised e ->
  submit text tr =
  (Raised e, tr ++ [HttpPost (run_url cfg) (auth_headers cfg) (run_payload text)]).
Proof.
  intros Hkey Hendpoint Hanswer.
  rewrite (submit_job_to_runpod_configured text tr Hkey Hendpoint). now rewrite Hanswer.
Qed.

(** X10.  An answer that is a JSON object without an [id] field makes
    [submit_job_to_runpod] raise a [ValueError] that quotes the answer, after
    the single request. *)
Theorem submit_job_to_runpod_answer_without_id text tr d :
  unset (RUNPOD_API_KEY cfg) = false ->
  unset (RUNPOD_API_ENDPOINT cfg) = false ->
  answer text = Returned (VDict d) ->
  dict_lookup (py "id") d = None ->
  submit text tr =
  (Raised (Exc ValueError
             (py "No job ID returned from Runpod: " ++ repr isprintable (VDict d))),
   tr ++ [HttpPost (run_url cfg) (auth_headers cfg) (run_payload text)]).
Proof.
  intros Hkey Hendpoint Hanswer Hid.
  rewrite (submit_job_to_runpod_configured text tr Hkey Hendpoint). rewrite Hanswer.
  unfold py_in, dict_has. now rewrite Hid.
Qed.

(** The submission adds nothing to the trace, or its one request. *)
Lemma submit_job_to_runpod_trace text tr :
  snd (submit text tr) = tr \/ snd (submit text tr) = tr ++ [post text].
Proof.
  destruct (unset (RUNPOD_API_KEY cfg)) eqn:Hkey.
  { left. now rewrite (submit_job_to_runpod_no_key text tr Hkey). }
  destruct (unset (RUNPOD_API_ENDPOINT cfg)) eqn:Hendpoint.
  { left. now rewrite (submit_job_to_runpod_no_endpoint text tr Hkey Hendpoint). }
  right. now rewrite (submit_job_to_runpod_configured text tr Hkey Hendpoint).
Qed.

End Submit.

(** ** Reading and writing objects *)

Lemma find_surrogate_none s :
  forall pos, find_surrogate pos s = None <-> existsb is_surrogate s = false.
Proof.
  induction s as [|c s IH]; intros pos; simpl; [tauto |].
  destruct (is_surrogate c); simpl; [split; discriminate | apply IH].
Qed.

Section Storage.

Variable world : World.

(** The read is one call, and what it yields or raises reaches the caller
    unchanged. *)
Lemma get_transcript_from_s3_call bucket key tr :
  get_transcript_from_s3 world bucket key tr =
  (s3_get_object world bucket key, tr ++ [S3GetObject bucket key]).
Proof.
  unfold get_transcript_from_s3, try_except, s3_client_get_object.
  destruct (s3_get_object world bucket key) as [text|e]; [reflexivity |].
  now destruct (existsb (isinstance e) [ClientError]).
Qed.

Lemma upload_summary_to_s3_text s bucket key tr :
  existsb is_surrogate s = false ->
  upload_summary_to_s3 world (VStr s) bucket key tr =
  (s3_put_object world bucket key s (py "text/plain"),
   tr ++ [S3PutObject bucket key s (py "text/plain")]).
Proof.
  intros Hs. unfold upload_summary_to_s3, try_except, bind, lift, encode_utf8.
  rewrite (proj2 (find_surrogate_none s 0) Hs).
  unfold s3_client_put_object.
  destruct (s3_put_object world bucket key s (py "text/plain")) as [[]|e]; [reflexivity |].
  now destruct (existsb (isinstance e) [ClientError]).
Qed.

Lemma upload_summary_to_s3_rejects summary bucket key tr :
  (forall s, summary = VStr s -> existsb is_surrogate s = true) ->
  exists e,
    upload_summary_to_s3 world summary bucket key tr = (Raised e, tr) /\
    (exc_type e = AttributeError \/ exc_type e = UnicodeEncodeError).
Proof.
  intros Hbad. unfold upload_summary_to_s3, try_except, bind, lift, encode_utf8.
  destruct summary as [ | | | |s| | ];
    try (eexists; split; [reflexivity | left; reflexivity]).
  destruct (find_surrogate 0 s) as [[[pos c] more]|] eqn:Hfind.
  - eexists. split; [reflexivity | right; reflexivity].
  - apply find_surrogate_none in Hfind. rewrite (Hbad s eq_refl) in Hfind.
    discriminate Hfind.
Qed.

(** X11.  [upload_summary_to_s3] writes only text: for a summary that is a
    string free of lone surrogates it makes exactly one [put_object] call,
    with the summary as body and content type [text/plain], and what that
    call yields or raises reaches the caller unchanged; for any other summary
    it raises an [AttributeError] or a [UnicodeEncodeError] before any call
    to S3. *)
Theorem upload_summary_to_s3_writes_only_text summary bucket key tr :
  (forall s,
     summary = VStr s ->
     existsb is_surrogate s = false ->
     upload_summary_to_s3 world summary bucket key tr =
     (s3_put_object world bucket key s (py "text/plain"),
      tr ++ [S3PutObject bucket key s (py "text/plain")])) /\
  ((forall s, summary = VStr s -> existsb is_surrogate s = true) ->
   exists e,
     upload_summary_to_s3 world summary bucket key tr = (Raised e, tr) /\
     (exc_type e = AttributeError \/ exc_type e = UnicodeEncodeError)).
Proof.
  split.
  - intros s -> Hs. now apply upload_summary_to_s3_text.
  - apply upload_summary_to_s3_rejects.
Qed.

(** The upload adds nothing to the trace, or its one call. *)
Lemma upload_summary_to_s3_trace summary bucket key tr :
  snd (upload_summary_to_s3 world summary bucket key tr) = tr \/
  exists s,
    summary = VStr s /\
    snd (upload_summary_to_s3 world summary bucket key tr) =
    tr ++ [S3PutObject bucket key s (py "text/plain")].
Proof.
  assert (Hreject : (forall s, summary = VStr s -> existsb is_surrogate s = true) ->
                    snd (upload_summary_to_s3 world summary bucket key tr) = tr).
  { intros Hbad.
    destruct (upload_summary_to_s3_rejects summary bucket key tr Hbad) as (e & Hrun & _).
    now rewrite Hrun. }
  destruct summary as [ | | | |s| | ];
    try (left; apply Hreject; intros s0 Heq; discriminate Heq).
  destruct (existsb is_surrogate s) eqn:Hs.
  - left. apply Hreject. intros s0 Heq. inversion Heq; subst s0. exact Hs.
  - right. exists s. split; [reflexivity |]. now rewrite upload_summary_to_s3_text.
Qed.

(** An upload that returns has written the summary, a text, once. *)
Lemma upload_summary_to_s3_returned summary bucket key tr tr' :
  upload_summary_to_s3 world summary bucket key tr = (Returned tt, tr') ->
  exists s,
    summary = VStr s /\ existsb is_surrogate s = false /\
    s3_put_object world bucket key s (py "text/plain") = Returned tt /\
    tr' = tr ++ [S3PutObject bucket key s (py "text/plain")].
Proof.
  intros Hrun.
  assert (Hgood : exists s, summary = VStr s /\ existsb is_surrogate s = false).
  { assert (Hreject : ~ (forall s, summary = VStr s -> existsb is_surrogate s = true)).
    { intros Hbad.
      destruct (upload_summary_to_s3_rejects summary bucket key tr Hbad) as (e & Hraised & _).
      rewrite Hraised in Hrun. discriminate Hrun. }
    destruct summary as [ | | | |s| | ];
      try (exfalso; apply Hreject; intros s0 Heq; discriminate Heq).
    exists s. split; [reflexivity |].
    destruct (existsb is_surrogate s) eqn:Hs; [| reflexivity].
    exfalso. apply Hreject. intros s0 Heq. inversion Heq; subst s0. exact Hs. }
  destruct Hgood as (s & -> & Hs). exists s.
  rewrite (upload_summary_to_s3_text s bucket key tr Hs) in Hrun.
  inversion Hrun as [[Hput Htr]]. now rewrite Hput.
Qed.

End Storage.

(** ** Malformed events *)

Lemma getitem_error_class isprintable obj ix e :
  getitem isprintable obj ix = Raised e ->
  exc_type e = KeyError \/ exc_type e = IndexError \/ exc_type e = TypeError.
Proof.
  unfold getitem.
  destruct obj as [ | | | |s|l|d]; destruct ix as [k|i];
    repeat match goal with
           | |- context [match ?o with Some _ => _ | None => _ end] => destruct o
           end;
    intros H; inversion H; simpl; auto.
Qed.

Ltac parse_step :=
  match goal with
  | |- context [getitem ?p ?obj ?ix] =>
      let H := fresh "Hget" in
      let e := fresh "e" in
      destruct (getitem p obj ix) as [?|e] eqn:H;
      [| apply getitem_error_class in H;
         destruct e as [c text]; simpl in H;
         destruct H as [-> | [-> | ->]]; simpl;
         intros Hrun; inversion Hrun; subst; simpl;
         (split; [reflexivity |]);
         first [ left; split; [reflexivity | eexists; reflexivity]
               | right; left; reflexivity
               | right; right; reflexivity ] ]
  end.

(** X12.  [parse_s3_event] performs no call, and a [KeyError] or
    [IndexError] never leaves it: whatever the event, it either returns the
    bucket and key or raises a [ValueError] whose text starts with
    ["Invalid S3 event format: "], a [TypeError], or an [AttributeError]. *)
Theorem parse_s3_event_errors isprintable event tr e tr' :
  parse_s3_event isprintable event tr = (Raised e, tr') ->
  tr' = tr /\
  ((exc_type e = ValueError /\
    exists detail, exc_text e = py "Invalid S3 event format: " ++ detail) \/
   exc_type e = TypeError \/ exc_type e = AttributeError).
Proof.
  unfold parse_s3_event, try_except, bind, lift, ret, raise.
  do 7 parse_step.
  unfold py_unquote_plus, no_attribute.
  match goal with
  | |- context [match ?key with VStr _ => _ | _ => _ end] => destruct key
  end; simpl; intros Hrun; inversion Hrun; subst; simpl; auto.
Qed.

(** X13.  An event without a [Records] field, or with an empty list of
    records, makes [parse_s3_event] raise the [ValueError] of the invalid
    event format, which names the missing field or the empty list. *)
Theorem parse_s3_event_without_records isprintable ev tr :
  (dict_lookup (py "Records") ev = None ->
   parse_s3_event isprintable (VDict ev) tr =
   (Raised (Exc ValueError (py "Invalid S3 event format: 'Records'")), tr)) /\
  (dict_lookup (py "Records") ev = Some (VList []) ->
   parse_s3_event isprintable (VDict ev) tr =
   (Raised (Exc ValueError (py "Invalid S3 event format: list index out of range")), tr)).
Proof.
  split; intros Hrecords;
    unfold parse_s3_event, try_except, bind, lift, getitem; rewrite Hrecords; reflexivity.
Qed.

(** X14.  A mistyped event is not reported as an invalid event format: an
    event that is not a JSON object makes [parse_s3_event] raise a
    [TypeError], and an object key that is not a string makes it raise the
    [AttributeError] of the missing [replace] method. *)
Theorem parse_s3_event_wrong_types isprintable tr :
  (forall event,
     (forall d, event <> VDict d) ->
     exists text, parse_s3_event isprintable event tr = (Raised (Exc TypeError text), tr)) /\
  (forall ev record rest s3 b o bucket key,
     dict_lookup (py "Records") ev = Some (VList (VDict record :: rest)) ->
     dict_lookup (py "s3") record = Some (VDict s3) ->
     dict_lookup (py "bucket") s3 = Some (VDict b) ->
     dict_lookup (py "name") b = Some bucket ->
     dict_lookup (py "object") s3 = Some (VDict o) ->
     dict_lookup (py "key") o = Some key ->
     (forall s, key <> VStr s) ->
     parse_s3_event isprintable (VDict ev) tr =
     (Raised (Exc AttributeError
                (py "'" ++ type_name key ++ py "' object has no attribute 'replace'")), tr)).
Proof.
  split.
  - intros event Hshape.
    destruct event as [ | | | |s|l|d]; try (eexists; reflexivity).
    now destruct (Hshape d).
  - intros ev record rest s3 b o bucket key Hrec Hs3 Hb Hname Ho Hkey Hshape.
    unfold parse_s3_event, try_except, bind, lift, getitem.
    rewrite Hrec. cbv beta iota. rewrite seq_index_first.
    cbv beta iota. rewrite Hs3. cbv beta iota. rewrite Hb. cbv beta iota.
    rewrite Hname. cbv beta iota. rewrite Ho. cbv beta iota. rewrite Hkey.
    destruct key; try reflexivity. now destruct (Hshape s).
Qed.

Lemma replace_char_absent a b s : has_char a s = false -> replace_char a b s = s.
Proof.
  induction s as [|c s IH]; [reflexivity |].
  unfold has_char, replace_char in *. cbn [existsb map].
  intros H. apply orb_false_iff in H as [Hc Hs].
  rewrite (IH Hs). rewrite N.eqb_sym in Hc. now rewrite Hc.
Qed.

Lemma unquote_plus_plain key :
  has_char (chr "+") key = false ->
  has_char (chr "%") key = false ->
  unquote_plus key = key.
Proof.
  intros Hplus Hpct. unfold unquote_plus, unquote.
  rewrite (replace_char_absent _ _ _ Hplus). now rewrite Hpct.
Qed.

Lemma parse_s3_event_well_formed isprintable ev record rest s3 b o bucket key tr :
  dict_lookup (py "Records") ev = Some (VList (VDict record :: rest)) ->
  dict_lookup (py "s3") record = Some (VDict s3) ->
  dict_lookup (py "bucket") s3 = Some (VDict b) ->
  dict_lookup (py "name") b = Some bucket ->
  dict_lookup (py "object") s3 = Some (VDict o) ->
  dict_lookup (py "key") o = Some (VStr key) ->
  parse_s3_event isprintable (VDict ev) tr = (Returned (bucket, unquote_plus key), tr).
Proof.
  intros Hrec Hs3 Hb Hname Ho Hkey.
  unfold parse_s3_event, try_except, bind, lift, getitem.
  rewrite Hrec. cbv beta iota. rewrite seq_index_first.
  cbv beta iota. rewrite Hs3. cbv beta iota. rewrite Hb. cbv beta iota.
  rewrite Hname. cbv beta iota. rewrite Ho. cbv beta iota. rewrite Hkey.
  reflexivity.
Qed.

(** X15.  An object key without [+] and without [%] needs no decoding:
    [parse_s3_event] returns it as it is written, non-ASCII characters
    included, and the bucket name with it, whatever JSON value that is. *)
Theorem parse_s3_event_plain_key isprintable ev record rest s3 b o bucket key tr :
  dict_lookup (py "Records") ev = Some (VList (VDict record :: rest)) ->
  dict_lookup (py "s3") record = Some (VDict s3) ->
  dict_lookup (py "bucket") s3 = Some (VDict b) ->
  dict_lookup (py "name") b = Some bucket ->
  dict_lookup (py "object") s3 = Some (VDict o) ->
  dict_lookup (py "key") o = Some (VStr key) ->
  has_char (chr "+") key = false ->
  has_char (chr "%") key = false ->
  parse_s3_event isprintable (VDict ev) tr = (Returned (bucket, key), tr).
Proof.
  intros Hrec Hs3 Hb Hname Ho Hkey Hplus Hpct.
  rewrite (parse_s3_event_well_formed isprintable ev record rest s3 b o bucket key tr)
    by assumption.
  now rewrite unquote_plus_plain.
Qed.

(** ** Output keys that coincide *)

(** X16.  [generate_output_key] forgets the extension: two keys that differ
    only in what follows their last ['.'] get the same output key, and so
    does the key without extension when it has no ['.'] of its own. *)
Theorem generate_output_key_collides base ext1 ext2 :
  has_char (chr ".") ext1 = false ->
  has_char (chr ".") ext2 = false ->
  generate_output_key (base ++ chr "." :: ext1) =
    generate_output_key (base ++ chr "." :: ext2) /\
  (has_char (chr ".") base = false ->
   generate_output_key (base ++ chr "." :: ext1) = generate_output_key base).
Proof.
  intros H1 H2.
  assert (Hkey : forall ext,
            has_char (chr ".") ext = false ->
            generate_output_key (base ++ chr "." :: ext) =
            py "summaries/" ++ base ++ py "_summary.txt").
  { intros ext Hext. unfold generate_output_key, rsplit1.
    rewrite (rpartition_last _ _ _ Hext).
    replace (has_char (chr ".") (base ++ chr "." :: ext)) with true; [reflexivity |].
    symmetry. unfold has_char. rewrite existsb_app. cbn [existsb].
    rewrite N.eqb_refl. now rewrite orb_true_r. }
  split.
  - now rewrite (Hkey ext1 H1), (Hkey ext2 H2).
  - intros Hbase. rewrite (Hkey ext1 H1). unfold generate_output_key. now rewrite Hbase.
Qed.

(** ** Blank transcripts *)

Lemma lstrip_nil s : lstrip s = [] -> forallb isspace s = true.
Proof.
  induction s as [|c s IH]; [reflexivity |].
  cbn [lstrip forallb]. destruct (isspace c); [exact IH | discriminate].
Qed.

Lemma lstrip_head s c t : lstrip s = c :: t -> isspace c = false.
Proof.
  induction s as [|c' s IH]; [discriminate |].
  cbn [lstrip]. destruct (isspace c') eqn:Hc; [exact IH |].
  intros H. inversion H; subst. exact Hc.
Qed.

Lemma forallb_rev {A} (f : A -> bool) l : forallb f (rev l) = forallb f l.
Proof.
  induction l as [|x l IH]; [reflexivity |].
  simpl. rewrite forallb_app, IH. simpl. rewrite andb_true_r. apply andb_comm.
Qed.

(** [strip] leaves nothing exactly of the texts that are whitespace only. *)
Lemma strip_nil_iff s : strip s = [] <-> forallb isspace s = true.
Proof.
  split; [| apply strip_blank].
  unfold strip, rstrip. intros H.
  assert (Hrev : lstrip (rev (lstrip s)) = []).
  { apply (f_equal (@rev codepoint)) in H. now rewrite rev_involutive in H. }
  apply lstrip_nil in Hrev. rewrite forallb_rev in Hrev.
  destruct (lstrip s) as [|c t] eqn:Hl; [now apply lstrip_nil |].
  apply lstrip_head in Hl. simpl in Hrev. rewrite Hl in Hrev. discriminate Hrev.
Qed.

(** ** The calls of one invocation *)

Ltac other_phase :=
  let Hp := fresh "Hp" in
  intros [] Hp; first [discriminate Hp | reflexivity].

Ltac calls_done :=
  first [ now rewrite ?app_nil_r, <- ?app_assoc
        | now left
        | right; eauto; fail
        | intros H; first [discriminate H | reflexivity] ].

Section Invocation.

Variable isprintable : codepoint -> bool.
Variable cfg : Config.
Variable world : World.
Variable spare_depth : nat.

Let handler := lambda_handler isprintable cfg world spare_depth.
Let body := handler_try isprintable cfg world.
Let headers := auth_headers cfg.
Let secs := POLLING_INTERVAL cfg.
Let budget := Z.to_nat (MAX_POLLING_ATTEMPTS cfg).
Let post (text : str) : event := HttpPost (run_url cfg) headers (run_payload text).

Lemma lambda_handler_trace event tr :
  (json_depth event <= S spare_depth)%nat ->
  snd (handler event tr) = snd (body event tr).
Proof.
  intros Hdepth. unfold handler. rewrite lambda_handler_catches by exact Hdepth. fold body.
  now destruct (body event tr) as [[envelope|e] tr'].
Qed.

(** The transcript stands whole between the two fixed parts of the prompt. *)
Lemma summary_prompt_parts text : summary_prompt text = prompt_head ++ text ++ prompt_tail.
Proof. reflexivity. Qed.

Lemma submit_job_to_runpod_returned text tr job_id tr' :
  submit_job_to_runpod isprintable cfg world text tr = (Returned job_id, tr') ->
  tr' = tr ++ [post text].
Proof.
  intros Hrun.
  destruct (unset (RUNPOD_API_KEY cfg)) eqn:Hkey.
  { rewrite (submit_job_to_runpod_no_key isprintable cfg world text tr Hkey) in Hrun.
    discriminate Hrun. }
  destruct (unset (RUNPOD_API_ENDPOINT cfg)) eqn:Hendpoint.
  { rewrite (submit_job_to_runpod_no_endpoint isprintable cfg world text tr Hkey Hendpoint)
      in Hrun.
    discriminate Hrun. }
  rewrite (submit_job_to_runpod_configured isprintable cfg world text tr Hkey Hendpoint)
    in Hrun.
  now inversion Hrun.
Qed.

(** The stages before the submission leave one S3 read in the trace. *)
Lemma transcript_fetched_trace event tr bucket key text tr1 :
  transcript_fetched isprintable world event tr bucket key text tr1 ->
  tr1 = tr ++ [S3GetObject bucket key] /\ s3_get_object world bucket key = Returned text.
Proof.
  intros (_ & Hfetch & _). rewrite get_transcript_from_s3_call in Hfetch.
  inversion Hfetch. now split.
Qed.

Lemma poll_runpod_job_calls job_id tr :
  exists polls,
    snd (poll_runpod_job isprintable cfg world job_id tr) = tr ++ polls /\
    Forall (fun ev => ev = HttpGet (status_url isprintable cfg job_id) headers \/
                      ev = Sleep secs) polls /\
    (count_gets polls <= budget)%nat /\
    (count_sleeps polls <= count_gets polls)%nat.
Proof.
  destruct (poll_runpod_job_extension isprintable cfg world job_id tr)
    as [i [[Hext Hi] | [Hext Hi]]].
  - eexists. split; [rewrite Hext; now rewrite <- (app_nil_r (polling_rounds _ _ _ i)) at 1 |].
    destruct (polling_trace_bounds (status_url isprintable cfg job_id) headers secs
                i budget false) as (H1 & H2 & H3 & _); [unfold budget; lia |].
    auto.
  - eexists. split; [exact Hext |].
    destruct (polling_trace_bounds (status_url isprintable cfg job_id) headers secs
                i budget true Hi) as (H1 & H2 & H3 & _).
    auto.
Qed.

(** The calls of an invocation, in their order: at most one S3 read, then at
    most one submission, then the polling, then at most one S3 write. *)
Lemma lambda_handler_calls event tr :
  exists reads posts polls puts,
    snd (handler event tr) = tr ++ reads ++ posts ++ polls ++ puts /\
    (reads = [] \/ exists bucket key, reads = [S3GetObject bucket key]) /\
    (posts = [] \/ exists text, posts = [post text]) /\
    (exists job_id,
       Forall (fun ev => ev = HttpGet (status_url isprintable cfg job_id) headers \/
                         ev = Sleep secs) polls) /\
    (count_gets polls <= budget)%nat /\
    (count_sleeps polls <= count_gets polls)%nat /\
    (puts = [] \/
     exists key s, puts = [S3PutObject (OUTPUT_BUCKET cfg) key s (py "text/plain")]) /\
    (reads = [] -> posts = []) /\
    (posts = [] -> polls = [] /\ puts = []).
Proof.
  assert (Hnone : forall reads posts tr',
            tr' = tr ++ reads ++ posts ->
            (reads = [] \/ exists bucket key, reads = [S3GetObject bucket key]) ->
            (posts = [] \/ exists text, posts = [post text]) ->
            (reads = [] -> posts = []) ->
            exists reads posts polls puts,
              tr' = tr ++ reads ++ posts ++ polls ++ puts /\
              (reads = [] \/ exists bucket key, reads = [S3GetObject bucket key]) /\
              (posts = [] \/ exists text, posts = [post text]) /\
              (exists job_id,
                 Forall (fun ev =>
                           ev = HttpGet (status_url isprintable cfg job_id) headers \/
                           ev = Sleep secs) polls) /\
              (count_gets polls <= budget)%nat /\
              (count_sleeps polls <= count_gets polls)%nat /\
              (puts = [] \/
               exists key s,
                 puts = [S3PutObject (OUTPUT_BUCKET cfg) key s (py "text/plain")]) /\
              (reads = [] -> posts = []) /\
              (posts = [] -> polls = [] /\ puts = [])).
  { intros reads posts tr' -> Hreads Hposts Horder.
    exists reads, posts, [], []. rewrite !app_nil_r.
    split; [reflexivity |]. split; [exact Hreads |]. split; [exact Hposts |].
    split; [exists VNone; constructor |].
    split; [unfold count_gets; simpl; lia |].
    split; [unfold count_gets, count_sleeps; simpl; lia |].
    split; [now left |]. split; [exact Horder |]. now split. }
  assert (Hpolled : forall bucket key text job_id tr3 puts,
            snd (poll_runpod_job isprintable cfg world job_id
                   (tr ++ [S3GetObject bucket key] ++ [post text])) = tr3 ->
            (puts = [] \/
             exists okey s,
               puts = [S3PutObject (OUTPUT_BUCKET cfg) okey s (py "text/plain")]) ->
            exists reads posts polls puts',
              tr3 ++ puts = tr ++ reads ++ posts ++ polls ++ puts' /\
              (reads = [] \/ exists bucket key, reads = [S3GetObject bucket key]) /\
              (posts = [] \/ exists text, posts = [post text]) /\
              (exists job_id,
                 Forall (fun ev =>
                           ev = HttpGet (status_url isprintable cfg job_id) headers \/
                           ev = Sleep secs) polls) /\
              (count_gets polls <= budget)%nat /\
              (count_sleeps polls <= count_gets polls)%nat /\
              (puts' = [] \/
               exists key s,
                 puts' = [S3PutObject (OUTPUT_BUCKET cfg) key s (py "text/plain")]) /\
              (reads = [] -> posts = []) /\
              (posts = [] -> polls = [] /\ puts' = [])).
  { intros bucket key text job_id tr3 puts Hpoll Hputs.
    destruct (poll_runpod_job_calls job_id (tr ++ [S3GetObject bucket key] ++ [post text]))
      as (polls & Hext & Hforall & Hgets & Hsleeps).
    rewrite <- Hpoll, Hext. clear Hpoll Hext.
    exists [S3GetObject bucket key], [post text], polls, puts.
    split; [now rewrite <- !app_assoc |].
    split; [right; eauto |]. split; [right; eauto |].
    split; [eauto |]. split; [exact Hgets |]. split; [exact Hsleeps |].
    split; [exact Hputs |]. split; discriminate. }
  destruct (Nat.leb_spec (json_depth event) (S spare_depth)) as [Hdepth | Hdepth].
  2: { unfold handler. rewrite lambda_handler_escapes by exact Hdepth. cbn [snd].
       apply (Hnone [] []); calls_done. }
  rewrite lambda_handler_trace by exact Hdepth.
  destruct (stages_exhaustive isprintable cfg world event tr)
    as [(bucket & key & tr' & Hok) | (e & tr' & Hfail)].
  - fold body. unfold body. rewrite (handler_try_succeeds _ _ _ _ _ _ _ _ Hok). cbn [snd].
    destruct Hok as [text tr1 job_id tr2 summary tr3 n Hparse Hfetch Htext Hsubmit
                       Hpoll Hlen Hstore].
    rewrite get_transcript_from_s3_call in Hfetch. inversion Hfetch as [[Hs3 Htr1]].
    apply submit_job_to_runpod_returned in Hsubmit. subst tr1 tr2.
    rewrite <- app_assoc in Hpoll.
    pose proof (upload_summary_to_s3_trace world summary (OUTPUT_BUCKET cfg)
                  (generate_output_key key) tr3) as Hup.
    rewrite Hstore in Hup. cbn [snd] in Hup.
    destruct Hup as [-> | (s & _ & ->)].
    + rewrite <- (app_nil_r tr3).
      apply (Hpolled bucket key text job_id tr3 []); [now rewrite Hpoll | now left].
    + apply (Hpolled bucket key text job_id tr3); [now rewrite Hpoll |].
      right. eauto.
  - unfold body. rewrite (handler_try_fails _ _ _ _ _ _ _ Hfail). cbn [snd].
    destruct Hfail as
      [ Hparse
      | bucket key Hparse Hfetch
      | bucket key text Hparse Hfetch Hblank He
      | bucket key text tr1 Hfetched Hsubmit
      | bucket key text tr1 job_id tr2 Hfetched Hsubmit Hpoll
      | bucket key text tr1 job_id tr2 summary Hfetched Hsubmit Hpoll Hlen
      | bucket key text tr1 job_id tr2 summary tr3 n Hfetched Hsubmit Hpoll Hlen Hstore ].
    + pose proof (parse_s3_event_pure isprintable event tr) as Hpure.
      rewrite Hparse in Hpure. cbn [snd] in Hpure. subst tr'.
      apply (Hnone [] []); calls_done.
    + rewrite get_transcript_from_s3_call in Hfetch. inversion Hfetch; subst.
      apply (Hnone [S3GetObject bucket key] []); calls_done.
    + rewrite get_transcript_from_s3_call in Hfetch. inversion Hfetch; subst.
      apply (Hnone [S3GetObject bucket key] []); calls_done.
    + apply transcript_fetched_trace in Hfetched as [-> _].
      pose proof (submit_job_to_runpod_trace isprintable cfg world text
                    (tr ++ [S3GetObject bucket key])) as Htrace.
      rewrite Hsubmit in Htrace. cbn [snd] in Htrace.
      destruct Htrace as [-> | ->].
      * apply (Hnone [S3GetObject bucket key] []); calls_done.
      * apply (Hnone [S3GetObject bucket key] [post text]); calls_done.
    + apply transcript_fetched_trace in Hfetched as [-> _].
      apply submit_job_to_runpod_returned in Hsubmit. subst tr2.
      rewrite <- app_assoc in Hpoll.
      rewrite <- (app_nil_r tr').
      apply (Hpolled bucket key text job_id tr' []); [now rewrite Hpoll | now left].
    + apply transcript_fetched_trace in Hfetched as [-> _].
      apply submit_job_to_runpod_returned in Hsubmit. subst tr2.
      rewrite <- app_assoc in Hpoll.
      rewrite <- (app_nil_r tr').
      apply (Hpolled bucket key text job_id tr' []); [now rewrite Hpoll | now left].
    + apply transcript_fetched_trace in Hfetched as [-> _].
      apply submit_job_to_runpod_returned in Hsubmit. subst tr2.
      rewrite <- app_assoc in Hpoll.
      pose proof (upload_summary_to_s3_trace world summary (OUTPUT_BUCKET cfg)
                    (generate_output_key key) tr3) as Hup.
      rewrite Hstore in Hup. cbn [snd] in Hup.
      destruct Hup as [-> | (s & _ & ->)].
      * rewrite <- (app_nil_r tr3).
        apply (Hpolled bucket key text job_id tr3 []); [now rewrite Hpoll | now left].
      * apply (Hpolled bucket key text job_id tr3); [now rewrite Hpoll |].
        right. eauto.
Qed.

Lemma in_phase_order_app l1 l2 :
  in_phase_order l1 = true ->
  in_phase_order l2 = true ->
  (forall a b, In a l1 -> In b l2 -> (phase a <= phase b)%nat) ->
  in_phase_order (l1 ++ l2) = true.
Proof.
  induction l1 as [|a l1 IH]; intros H1 H2 Hcross; [exact H2 |].
  destruct l1 as [|a' l1].
  - destruct l2 as [|b l2]; [reflexivity |].
    cbn [app in_phase_order]. cbn [in_phase_order] in H2.
    apply andb_true_iff. split; [| exact H2].
    apply Nat.leb_le. apply Hcross; now left.
  - cbn [in_phase_order] in H1. apply andb_true_iff in H1 as [Hle Hrest].
    change ((a :: a' :: l1) ++ l2) with (a :: (a' :: l1) ++ l2).
    cbn [in_phase_order app]. apply andb_true_iff. split; [exact Hle |].
    apply IH; trivial. intros x y Hx Hy. apply Hcross; [now right | exact Hy].
Qed.

Lemma in_phase_order_constant p l :
  Forall (fun ev => phase ev = p) l -> in_phase_order l = true.
Proof.
  induction 1 as [|ev l Hev Hl IH]; [reflexivity |].
  destruct l as [|next l]; [reflexivity |].
  cbn [in_phase_order]. apply andb_true_iff. split; [| exact IH].
  apply Nat.leb_le. inversion Hl; subst. lia.
Qed.

Lemma filter_nil_phase (f : event -> bool) p l :
  (forall ev, phase ev = p -> f ev = false) ->
  Forall (fun ev => phase ev = p) l ->
  filter f l = [].
Proof.
  intros Hf. induction 1 as [|ev l Hev Hl IH]; [reflexivity |].
  simpl. now rewrite (Hf ev Hev).
Qed.

(** X17.  Whatever the event and whatever the services answer, one
    invocation of [lambda_handler] makes its calls in stage order (S3 read,
    job submission, polling, S3 write) and makes at most one S3 read, one
    job submission, one S3 write and [MAX_POLLING_ATTEMPTS] status requests,
    with no more sleeps than status requests. *)
Theorem lambda_handler_call_order event tr :
  exists calls,
    snd (handler event tr) = tr ++ calls /\
    in_phase_order calls = true /\
    (count_s3_gets calls <= 1)%nat /\
    (count_posts calls <= 1)%nat /\
    (count_s3_puts calls <= 1)%nat /\
    (count_gets calls <= budget)%nat /\
    (count_sleeps calls <= count_gets calls)%nat.
Proof.
  destruct (lambda_handler_calls event tr)
    as (reads & posts & polls & puts & Htrace & Hreads & Hposts & (job_id & Hpolls)
        & Hgets & Hsleeps & Hputs & _ & _).
  exists (reads ++ posts ++ polls ++ puts). split; [exact Htrace |].
  assert (Preads : Forall (fun ev => phase ev = 0%nat) reads).
  { destruct Hreads as [-> | (bucket & key & ->)]; repeat constructor. }
  assert (Pposts : Forall (fun ev => phase ev = 1%nat) posts).
  { destruct Hposts as [-> | (text & ->)]; repeat constructor. }
  assert (Ppolls : Forall (fun ev => phase ev = 2%nat) polls).
  { eapply Forall_impl; [| exact Hpolls]. intros ev [-> | ->]; reflexivity. }
  assert (Pputs : Forall (fun ev => phase ev = 3%nat) puts).
  { destruct Hputs as [-> | (key & s & ->)]; repeat constructor. }
  assert (Lreads : (List.length reads <= 1)%nat).
  { destruct Hreads as [-> | (bucket & key & ->)]; simpl; lia. }
  assert (Lposts : (List.length posts <= 1)%nat).
  { destruct Hposts as [-> | (text & ->)]; simpl; lia. }
  assert (Lputs : (List.length puts <= 1)%nat).
  { destruct Hputs as [-> | (key & s & ->)]; simpl; lia. }
  assert (Hin : forall p l ev, Forall (fun ev => phase ev = p) l -> In ev l -> phase ev = p).
  { intros p l ev Hl. rewrite Forall_forall in Hl. apply Hl. }
  split.
  - apply in_phase_order_app; [now apply in_phase_order_constant with 0%nat | |].
    + apply in_phase_order_app; [now apply in_phase_order_constant with 1%nat | |].
      * apply in_phase_order_app;
          [ now apply in_phase_order_constant with 2%nat
          | now apply in_phase_order_constant with 3%nat |].
        intros a b Ha Hb. rewrite (Hin _ _ _ Ppolls Ha), (Hin _ _ _ Pputs Hb). lia.
      * intros a b Ha Hb. rewrite (Hin _ _ _ Pposts Ha).
        apply in_app_or in Hb as [Hb | Hb];
          [rewrite (Hin _ _ _ Ppolls Hb) | rewrite (Hin _ _ _ Pputs Hb)]; lia.
    + intros a b Ha Hb. rewrite (Hin _ _ _ Preads Ha). lia.
  - assert (Hbound : forall (f : _ -> bool) (l : trace),
              (List.length l <= 1)%nat -> (List.length (filter f l) <= 1)%nat).
    { intros f l Hl. pose proof (filter_length_le f l). lia. }
    unfold count_s3_gets, count_posts, count_s3_puts, count_gets, count_sleeps in *.
    rewrite !filter_app, !length_app.
    repeat split.
    + rewrite (filter_nil_phase _ 1%nat posts), (filter_nil_phase _ 2%nat polls),
        (filter_nil_phase _ 3%nat puts); trivial; try other_phase.
      specialize (Hbound (fun ev => match ev with S3GetObject _ _ => true | _ => false end)
                    reads Lreads).
      simpl. lia.
    + rewrite (filter_nil_phase _ 0%nat reads), (filter_nil_phase _ 2%nat polls),
        (filter_nil_phase _ 3%nat puts); trivial; try other_phase.
      specialize (Hbound (fun ev => match ev with HttpPost _ _ _ => true | _ => false end)
                    posts Lposts).
      simpl. lia.
    + rewrite (filter_nil_phase _ 0%nat reads), (filter_nil_phase _ 1%nat posts),
        (filter_nil_phase _ 2%nat polls); trivial; try other_phase.
      specialize (Hbound (fun ev => match ev with S3PutObject _ _ _ _ => true | _ => false end)
                    puts Lputs).
      simpl. lia.
    + rewrite (filter_nil_phase _ 0%nat reads), (filter_nil_phase _ 1%nat posts),
        (filter_nil_phase _ 3%nat puts); trivial; try other_phase.
      simpl. lia.
    + rewrite !(filter_nil_phase _ 0%nat reads), !(filter_nil_phase _ 1%nat posts),
        !(filter_nil_phase _ 3%nat puts); trivial; try other_phase.
      simpl. lia.
Qed.

(** X18.  A transcript with at least one character that is not whitespace
    passes the emptiness check, and with both settings present it is
    submitted whole, leading and trailing whitespace included: for an event
    that the first statement can log, the trace goes on with the S3 read and
    then the POST, to the endpoint's [/run] with the bearer key, of the
    payload whose prompt is the fixed head, the untrimmed transcript and the
    fixed tail, with [max_tokens] 6000, [temperature] 0.5 and [top_p] 0.9. *)
Theorem lambda_handler_submits_whole_transcript event tr bucket key text :
  (json_depth event <= S spare_depth)%nat ->
  parse_s3_event isprintable event tr = (Returned (bucket, key), tr) ->
  s3_get_object world bucket key = Returned text ->
  forallb isspace text = false ->
  unset (RUNPOD_API_KEY cfg) = false ->
  unset (RUNPOD_API_ENDPOINT cfg) = false ->
  exists rest,
    snd (handler event tr) =
    tr ++ [S3GetObject bucket key;
           HttpPost (setting_str (RUNPOD_API_ENDPOINT cfg) ++ py "/run")
             (VDict [(py "Authorization",
                      VStr (py "Bearer " ++ setting_str (RUNPOD_API_KEY cfg)));
                     (py "Content-Type", VStr (py "application/json"))])
             (VDict [(py "input",
                      VDict [(py "prompt", VStr (prompt_head ++ text ++ prompt_tail));
                             (py "max_tokens", VInt 6000);
                             (py "temperature", VFloat (FFinite (py "0.5")));
                             (py "top_p", VFloat (FFinite (py "0.9")))])])] ++ rest.
Proof.
  intros Hdepth Hparse Hs3 Hblank Hkey Hendpoint.
  rewrite <- summary_prompt_parts.
  change (exists rest,
            snd (handler event tr) =
            tr ++ [S3GetObject bucket key;
                   HttpPost (run_url cfg) (auth_headers cfg) (run_payload text)] ++ rest).
  assert (Htext : strip text <> []).
  { intros Hnil. apply strip_nil_iff in Hnil. rewrite Hnil in Hblank. discriminate. }
  assert (Hsame : forall bucket' key' text' tr1,
            transcript_fetched isprintable world event tr bucket' key' text' tr1 ->
            bucket' = bucket /\ key' = key /\ text' = text /\
            tr1 = tr ++ [S3GetObject bucket key]).
  { intros bucket' key' text' tr1 (Hparse' & Hfetch & _).
    rewrite Hparse in Hparse'. inversion Hparse'; subst bucket' key'.
    rewrite get_transcript_from_s3_call, Hs3 in Hfetch. inversion Hfetch. auto. }
  assert (Hposted : forall out tr2,
            submit_job_to_runpod isprintable cfg world text (tr ++ [S3GetObject bucket key])
              = (out, tr2) ->
            tr2 = tr ++ [S3GetObject bucket key;
                         HttpPost (run_url cfg) (auth_headers cfg) (run_payload text)]).
  { intros out tr2 Hsubmit.
    rewrite (submit_job_to_runpod_configured isprintable cfg world text _ Hkey Hendpoint)
      in Hsubmit.
    inversion Hsubmit. now rewrite <- app_assoc. }
  assert (Hpolled : forall job_id out tr2 tr3,
            poll_runpod_job isprintable cfg world job_id tr2 = (out, tr3) ->
            exists polls, tr3 = tr2 ++ polls).
  { intros job_id out tr2 tr3 Hpoll.
    destruct (poll_runpod_job_calls job_id tr2) as (polls & Hext & _).
    rewrite Hpoll in Hext. eauto. }
  rewrite lambda_handler_trace by exact Hdepth.
  destruct (stages_exhaustive isprintable cfg world event tr)
    as [(bucket' & key' & tr' & Hok) | (e & tr' & Hfail)].
  - unfold body. rewrite (handler_try_succeeds _ _ _ _ _ _ _ _ Hok). cbn [snd].
    destruct Hok as [text' tr1 job_id tr2 summary tr3 n Hparse' Hfetch Htext' Hsubmit
                       Hpoll Hlen Hstore].
    destruct (Hsame bucket' key' text' tr1) as (-> & -> & -> & ->); [now repeat split |].
    apply Hposted in Hsubmit. apply Hpolled in Hpoll as (polls & ->).
    apply upload_summary_to_s3_returned in Hstore as (s & _ & _ & _ & ->).
    subst tr2. eexists. rewrite <- !app_assoc. reflexivity.
  - unfold body. rewrite (handler_try_fails _ _ _ _ _ _ _ Hfail). cbn [snd].
    destruct Hfail as
      [ Hparse'
      | bucket' key' Hparse' Hfetch
      | bucket' key' text' Hparse' Hfetch Hnil He
      | bucket' key' text' tr1 Hfetched Hsubmit
      | bucket' key' text' tr1 job_id tr2 Hfetched Hsubmit Hpoll
      | bucket' key' text' tr1 job_id tr2 summary Hfetched Hsubmit Hpoll Hlen
      | bucket' key' text' tr1 job_id tr2 summary tr3 n Hfetched Hsubmit Hpoll Hlen Hstore ].
    + rewrite Hparse in Hparse'. discriminate Hparse'.
    + rewrite Hparse in Hparse'. inversion Hparse'; subst.
      rewrite get_transcript_from_s3_call, Hs3 in Hfetch. discriminate Hfetch.
    + rewrite Hparse in Hparse'. inversion Hparse'; subst.
      rewrite get_transcript_from_s3_call, Hs3 in Hfetch. inversion Hfetch; subst.
      contradiction.
    + destruct (Hsame _ _ _ _ Hfetched) as (-> & -> & -> & ->).
      apply Hposted in Hsubmit. subst tr'. now exists [].
    + destruct (Hsame _ _ _ _ Hfetched) as (-> & -> & -> & ->).
      apply Hposted in Hsubmit. apply Hpolled in Hpoll as (polls & ->).
      subst tr2. eexists. rewrite <- !app_assoc. reflexivity.
    + destruct (Hsame _ _ _ _ Hfetched) as (-> & -> & -> & ->).
      apply Hposted in Hsubmit. apply Hpolled in Hpoll as (polls & ->).
      subst tr2. eexists. rewrite <- !app_assoc. reflexivity.
    + destruct (Hsame _ _ _ _ Hfetched) as (-> & -> & -> & ->).
      apply Hposted in Hsubmit. apply Hpolled in Hpoll as (polls & ->).
      pose proof (upload_summary_to_s3_trace world summary (OUTPUT_BUCKET cfg)
                    (generate_output_key key) (tr2 ++ polls)) as Hup.
      rewrite Hstore in Hup. cbn [snd] in Hup.
      destruct Hup as [-> | (s & _ & ->)];
        subst tr2; eexists; rewrite <- !app_assoc; reflexivity.
Qed.

(** X19.  The settings are looked at only after the transcript has been
    read: without an API key, an event that the first statement can log and
    that names a transcript with text gets the 500 envelope of the API-key
    error, and the S3 read is the one call that has been made. *)
Theorem lambda_handler_missing_api_key event tr bucket key text :
  (json_depth event <= S spare_depth)%nat ->
  parse_s3_event isprintable event tr = (Returned (bucket, key), tr) ->
  s3_get_object world bucket key = Returned text ->
  forallb isspace text = false ->
  unset (RUNPOD_API_KEY cfg) = true ->
  handler event tr =
  (Returned (error_envelope (Exc ValueError (py "Runpod API key is not set."))),
   tr ++ [S3GetObject bucket key]).
Proof.
  intros Hdepth Hparse Hs3 Hblank Hkey.
  unfold handler. rewrite lambda_handler_catches by exact Hdepth.
  rewrite (handler_try_fails isprintable cfg world event tr
             (Exc ValueError (py "Runpod API key is not set."))
             (tr ++ [S3GetObject bucket key])); [reflexivity |].
  apply submit_fails with bucket key text (tr ++ [S3GetObject bucket key]).
  - repeat split; trivial.
    + now rewrite get_transcript_from_s3_call, Hs3.
    + intros Hnil. apply strip_nil_iff in Hnil. rewrite Hnil in Hblank. discriminate.
  - now apply submit_job_to_runpod_no_key.
Qed.

(** X20.  An event without records is answered without any call: for an
    event object that the first statement can log and that has no [Records]
    field, or whose [Records] list is empty, [lambda_handler] returns the
    500 envelope of the invalid event format and leaves the trace as it
    was. *)
Theorem lambda_handler_without_records ev tr :
  (json_depth (VDict ev) <= S spare_depth)%nat ->
  (dict_lookup (py "Records") ev = None ->
   handler (VDict ev) tr =
   (Returned (error_envelope
                (Exc ValueError (py "Invalid S3 event format: 'Records'"))), tr)) /\
  (dict_lookup (py "Records") ev = Some (VList []) ->
   handler (VDict ev) tr =
   (Returned (error_envelope
                (Exc ValueError (py "Invalid S3 event format: list index out of range"))),
    tr)).
Proof.
  intros Hdepth.
  split; intros Hrecords; unfold handler; rewrite lambda_handler_catches by exact Hdepth;
    (erewrite handler_try_fails; [reflexivity |]);
    apply parse_fails;
    unfold parse_s3_event, try_except, bind, lift, getitem; rewrite Hrecords; reflexivity.
Qed.

(** X21.  A 200 envelope means the summary is stored: when [lambda_handler]
    returns status code 200, its calls were, in this order, the S3 read of
    the transcript, the submission of that transcript, some rounds of polling
    ending with a status request, and one successful S3 write, to
    [OUTPUT_BUCKET] at the key derived from the input key, of a summary that
    is a text. *)
Theorem lambda_handler_ok_means_stored event tr envelope tr' :
  handler event tr = (Returned envelope, tr') ->
  status_code envelope = Some (VInt 200) ->
  exists bucket key text job_id i summary,
    (i < budget)%nat /\
    s3_get_object world bucket key = Returned text /\
    s3_put_object world (OUTPUT_BUCKET cfg) (generate_output_key key) summary
      (py "text/plain") = Returned tt /\
    tr' = tr ++ [S3GetObject bucket key;
                 HttpPost (run_url cfg) (auth_headers cfg) (run_payload text)]
             ++ polling_rounds (status_url isprintable cfg job_id) (auth_headers cfg)
                  (POLLING_INTERVAL cfg) i
             ++ [HttpGet (status_url isprintable cfg job_id) (auth_headers cfg);
                 S3PutObject (OUTPUT_BUCKET cfg) (generate_output_key key) summary
                   (py "text/plain")].
Proof.
  intros Hrun Hcode. unfold handler in Hrun.
  destruct (Nat.leb_spec (json_depth event) (S spare_depth)) as [Hdepth | Hdepth].
  2: { rewrite lambda_handler_escapes in Hrun by exact Hdepth. discriminate Hrun. }
  rewrite lambda_handler_catches in Hrun by exact Hdepth.
  destruct (stages_exhaustive isprintable cfg world event tr)
    as [(bucket & key & tr1' & Hok) | (e & tr1' & Hfail)].
  2: { rewrite (handler_try_fails _ _ _ _ _ _ _ Hfail) in Hrun.
       inversion Hrun; subst. discriminate Hcode. }
  rewrite (handler_try_succeeds _ _ _ _ _ _ _ _ Hok) in Hrun.
  inversion Hrun; subst tr1'. clear Hrun Hcode.
  destruct Hok as [text tr1 job_id tr2 summary tr3 n Hparse Hfetch Htext Hsubmit
                     Hpoll Hlen Hstore].
  rewrite get_transcript_from_s3_call in Hfetch. inversion Hfetch as [[Hs3 Htr1]].
  apply submit_job_to_runpod_returned in Hsubmit.
  apply poll_runpod_job_returned in Hpoll as (i & Hi & Htr3).
  apply upload_summary_to_s3_returned in Hstore as (s & -> & _ & Hput & Htr').
  exists bucket, key, text, job_id, i, s.
  split; [exact Hi |]. split; [exact Hs3 |]. split; [exact Hput |].
  subst. rewrite <- !app_assoc. reflexivity.
Qed.

(** X22.  A summary that is not a text is never stored: when the polling
    returns a value that is not a string (a number, [null], a list, an
    object), [lambda_handler], given an event that the first statement can
    log, returns a 500 envelope for a [TypeError] or an [AttributeError],
    and the trace ends where the polling ended, without an S3 write. *)
Theorem lambda_handler_non_text_summary event tr bucket key text tr1 job_id tr2 summary tr3 :
  (json_depth event <= S spare_depth)%nat ->
  transcript_fetched isprintable world event tr bucket key text tr1 ->
  submit_job_to_runpod isprintable cfg world text tr1 = (Returned job_id, tr2) ->
  poll_runpod_job isprintable cfg world job_id tr2 = (Returned summary, tr3) ->
  (forall s, summary <> VStr s) ->
  exists e,
    handler event tr = (Returned (error_envelope e), tr3) /\
    (exc_type e = TypeError \/ exc_type e = AttributeError).
Proof.
  intros Hdepth Hfetched Hsubmit Hpoll Hshape.
  destruct (py_len summary) as [n|e] eqn:Hlen.
  - destruct (upload_summary_to_s3_rejects world summary (OUTPUT_BUCKET cfg)
                (generate_output_key key) tr3) as (e & Hstore & Hclass).
    { intros s Heq. now destruct (Hshape s). }
    exists e. split.
    + unfold handler. rewrite lambda_handler_catches by exact Hdepth.
      erewrite handler_try_fails; [reflexivity |].
      now apply store_fails with bucket key text tr1 job_id tr2 summary tr3 n.
    + destruct Hclass as [Hclass | Hclass]; [now right |].
      unfold upload_summary_to_s3, try_except, bind, lift, encode_utf8 in Hstore.
      destruct summary; try discriminate Hlen; try (now destruct (Hshape s));
        inversion Hstore; subst; discriminate Hclass.
  - exists e. split.
    + unfold handler. rewrite lambda_handler_catches by exact Hdepth.
      erewrite handler_try_fails; [reflexivity |].
      now apply summary_length_fails with bucket key text tr1 job_id tr2 summary.
    + left. destruct summary; inversion Hlen; reflexivity.
Qed.

End Invocation.

(** ** The envelope bodies *)

Lemma hex_digit_printable d : (d < 16)%N -> printable_ascii (hex_digit d) = true.
Proof.
  intros Hd. unfold printable_ascii, hex_digit.
  destruct (N.ltb_spec d 10); apply andb_true_iff; split; apply N.leb_le; lia.
Qed.

Lemma hex_printable width : forall n, forallb printable_ascii (hex width n) = true.
Proof.
  induction width as [|w IH]; intros n; [reflexivity |].
  cbn [hex]. rewrite forallb_app, IH. cbn [forallb].
  rewrite hex_digit_printable; [reflexivity |].
  apply N.mod_lt. discriminate.
Qed.

Lemma json_escape_char_printable c : forallb printable_ascii (json_escape_char c) = true.
Proof.
  unfold json_escape_char.
  repeat match goal with
         | |- context [if ?b then _ else _] => destruct b eqn:?
         end;
    try reflexivity;
    rewrite ?forallb_app, ?hex_printable; try reflexivity.
  cbn [forallb]. unfold printable_ascii.
  match goal with H : (_ && _)%bool = true |- _ => now rewrite H end.
Qed.

(** [json.dumps] of a string is printable ASCII, whatever the string. *)
Lemma json_string_printable s : forallb printable_ascii (json_string s) = true.
Proof.
  unfold json_string. rewrite !forallb_app.
  assert (Hbody : forallb printable_ascii (flat_map json_escape_char s) = true).
  { induction s as [|c s IH]; [reflexivity |].
    cbn [flat_map]. now rewrite forallb_app, json_escape_char_printable, IH. }
  now rewrite Hbody.
Qed.

(** X23.  The body of every envelope is printable ASCII: whatever characters
    the error text, the bucket name or the keys contain, [json.dumps] escapes
    the quotes, the backslashes, the control characters and everything
    outside ASCII. *)
Theorem envelope_body_printable_ascii isprintable cfg :
  (forall e,
     exists body,
       envelope_body (error_envelope e) = Some (VStr body) /\
       forallb printable_ascii body = true) /\
  (forall bucket key output_key,
     exists body,
       envelope_body (success_envelope isprintable cfg bucket key output_key)
         = Some (VStr body) /\
       forallb printable_ascii body = true).
Proof.
  split; [intros e | intros bucket key output_key];
    (eexists; split; [reflexivity |]);
    cbn [json_dumps map join fst snd];
    rewrite !forallb_app, !json_string_printable; reflexivity.
Qed.


(** ** The further statements on sample runs *)

Lemma poll_runpod_job_returns_only_completed_sample :
  exists i d,
    (i < 3)%nat /\
    Sample.running_running_completed i = Returned (VDict d) /\
    completed_result (output_of d) = Returned (VStr (py "X")).
Proof.
  destruct (poll_runpod_job_returns_only_completed isprintable_ascii Sample.cfg
              (Sample.world [] Sample.running_running_completed) Sample.job_id []
              (VStr (py "X"))
              [HttpGet Sample.url Sample.headers; Sleep 10;
               HttpGet Sample.url Sample.headers; Sleep 10;
               HttpGet Sample.url Sample.headers] eq_refl)
    as (i & d & Hi & _ & Hreply & _ & Hout & _).
  exists i, d. repeat split; assumption.
Defined.

Lemma poll_runpod_job_without_budget_sample :
  poll_runpod_job isprintable_ascii Cases.cfg_without_budget
    (Sample.world [] Sample.always_running) Sample.job_id [] =
  (Raised (Exc TimeoutError (py "Polling for Runpod job job-1 timed out after 0 attempts.")),
   []).
Proof.
  apply (poll_runpod_job_without_budget isprintable_ascii Cases.cfg_without_budget
           (Sample.world [] Sample.always_running) Sample.job_id []).
  simpl. lia.
Defined.

Lemma poll_runpod_job_answer_not_object_sample :
  poll_runpod_job isprintable_ascii Sample.cfg
    (Sample.world [] (fun _ => Returned (VList []))) Sample.job_id [] =
  (Raised (Exc AttributeError (py "'list' object has no attribute 'get'")),
   [HttpGet Sample.url Sample.headers]).
Proof.
  refine (poll_runpod_job_answer_not_object isprintable_ascii Sample.cfg
            (Sample.world [] (fun _ => Returned (VList []))) Sample.job_id 0 []
            (VList []) _ _ _ eq_refl _).
  - simpl. lia.
  - intros H. inversion H.
  - intros j H. inversion H.
  - discriminate.
Defined.

Lemma poll_runpod_job_other_exception_sample :
  poll_runpod_job isprintable_ascii Sample.cfg
    (Sample.world [] (Cases.fails_with Cases.not_json)) Sample.job_id [] =
  (Raised Cases.not_json, [HttpGet Sample.url Sample.headers]).
Proof.
  refine (poll_runpod_job_other_exception isprintable_ascii Sample.cfg
            (Sample.world [] (Cases.fails_with Cases.not_json)) Sample.job_id 0 []
            Cases.not_json _ _ _ eq_refl eq_refl).
  - simpl. lia.
  - intros H. inversion H.
  - intros j H. inversion H.
Defined.

Lemma poll_runpod_job_negative_interval_sample :
  poll_runpod_job isprintable_ascii Cases.cfg_negative_interval
    (Sample.world [] Sample.always_running) Sample.job_id [] =
  (Raised (Exc ValueError (py "sleep length must be non-negative")),
   [HttpGet Sample.url Sample.headers]).
Proof.
  refine (poll_runpod_job_negative_interval isprintable_ascii Cases.cfg_negative_interval
            (Sample.world [] Sample.always_running) Sample.job_id [] _ _ _).
  - simpl. lia.
  - simpl. lia.
  - left. reflexivity.
Defined.

Lemma submit_job_to_runpod_unconfigured_sample :
  submit_job_to_runpod isprintable_ascii Cases.cfg_without_key
    (Sample.world [] Sample.always_running) (py "hello world") [] =
  (Raised (Exc ValueError (py "Runpod API key is not set.")), []).
Proof.
  exact (proj1 (submit_job_to_runpod_unconfigured isprintable_ascii Cases.cfg_without_key
                  (Sample.world [] Sample.always_running) (py "hello world") [])
           eq_refl).
Defined.

Lemma submit_job_to_runpod_returns_id_sample :
  submit_job_to_runpod isprintable_ascii Sample.cfg
    (Sample.world [] Sample.always_running) (py "hello world") [] =
  (Returned Sample.job_id,
   [HttpPost (py "https://api.runpod.ai/v2/endpoint/run") Sample.headers
      (Cases.payload_of (py "hello world"))]).
Proof.
  apply (proj2 (submit_job_to_runpod_returns_id isprintable_ascii Sample.cfg
                  (Sample.world [] Sample.always_running) (py "hello world") []
                  Sample.job_id _)).
  split; [reflexivity |]. split; [reflexivity |]. split; [| reflexivity].
  exists [(py "id", VStr (py "job-1"))]. split; reflexivity.
Defined.

Lemma submit_job_to_runpod_request_fails_sample :
  submit_job_to_runpod isprintable_ascii Sample.cfg
    (Cases.world_answering (Raised Cases.gateway_down)) (py "hello world") [] =
  (Raised Cases.gateway_down,
   [HttpPost (py "https://api.runpod.ai/v2/endpoint/run") Sample.headers
      (Cases.payload_of (py "hello world"))]).
Proof.
  exact (submit_job_to_runpod_request_fails isprintable_ascii Sample.cfg
           (Cases.world_answering (Raised Cases.gateway_down)) (py "hello world") []
           Cases.gateway_down eq_refl eq_refl eq_refl).
Defined.

Lemma submit_job_to_runpod_answer_without_id_sample :
  submit_job_to_runpod isprintable_ascii Sample.cfg
    (Cases.world_answering (Returned (VDict [(py "error", VStr (py "busy"))])))
    (py "hello world") [] =
  (Raised (Exc ValueError (py "No job ID returned from Runpod: {'error': 'busy'}")),
   [HttpPost (py "https://api.runpod.ai/v2/endpoint/run") Sample.headers
      (Cases.payload_of (py "hello world"))]).
Proof.
  exact (submit_job_to_runpod_answer_without_id isprintable_ascii Sample.cfg
           (Cases.world_answering (Returned (VDict [(py "error", VStr (py "busy"))])))
           (py "hello world") [] [(py "error", VStr (py "busy"))]
           eq_refl eq_refl eq_refl eq_refl).
Defined.

Lemma upload_summary_to_s3_writes_only_text_sample :
  upload_summary_to_s3 (Sample.world [] Sample.always_running) (VStr (py "Hello!"))
    (py "summaries") (py "summaries/a_summary.txt") [] =
  (Returned tt,
   [S3PutObject (py "summaries") (py "summaries/a_summary.txt") (py "Hello!")
      (py "text/plain")]) /\
  exists e,
    upload_summary_to_s3 (Sample.world [] Sample.always_running) (VInt 7)
      (py "summaries") (py "summaries/a_summary.txt") [] = (Raised e, []).
Proof.
  split.
  - exact (proj1 (upload_summary_to_s3_writes_only_text
                    (Sample.world [] Sample.always_running) (VStr (py "Hello!"))
                    (py "summaries") (py "summaries/a_summary.txt") [])
             (py "Hello!") eq_refl eq_refl).
  - destruct (proj2 (upload_summary_to_s3_writes_only_text
                       (Sample.world [] Sample.always_running) (VInt 7)
                       (py "summaries") (py "summaries/a_summary.txt") []))
      as (e & Hrun & _).
    + intros s H. discriminate H.
    + now exists e.
Defined.

Lemma parse_s3_event_errors_sample :
  exists e,
    parse_s3_event isprintable_ascii (VDict [(py "Records", VList [])]) [] = (Raised e, []) /\
    exc_type e <> KeyError /\ exc_type e <> IndexError.
Proof.
  eexists. split; [reflexivity |].
  destruct (parse_s3_event_errors isprintable_ascii (VDict [(py "Records", VList [])]) []
              _ [] eq_refl) as [_ [[H _] | [H | H]]];
    rewrite H; split; discriminate.
Defined.

Lemma parse_s3_event_without_records_sample :
  parse_s3_event isprintable_ascii (VDict [(py "Records", VList [])]) [] =
  (Raised (Exc ValueError (py "Invalid S3 event format: list index out of range")), []).
Proof.
  exact (proj2 (parse_s3_event_without_records isprintable_ascii
                  [(py "Records", VList [])] []) eq_refl).
Defined.

Lemma parse_s3_event_wrong_types_sample :
  exists text,
    parse_s3_event isprintable_ascii (VList [Sample.record (py "b") (py "k")]) [] =
    (Raised (Exc TypeError text), []).
Proof.
  apply (proj1 (parse_s3_event_wrong_types isprintable_ascii [])).
  discriminate.
Defined.

Lemma parse_s3_event_plain_key_sample :
  parse_s3_event isprintable_ascii Cases.plain_event [] =
  (Returned (VStr (py "uploads"), py "talks/intro.txt"), []).
Proof.
  unfold Cases.plain_event.
  refine (parse_s3_event_plain_key isprintable_ascii _ _ _ _ _ _
            (VStr (py "uploads")) (py "talks/intro.txt") [] _ _ _ _ _ _ _ _);
    reflexivity.
Defined.

Lemma generate_output_key_collides_sample :
  generate_output_key (py "talks/intro.txt") = generate_output_key (py "talks/intro.pdf").
Proof.
  exact (proj1 (generate_output_key_collides (py "talks/intro") (py "txt") (py "pdf")
                  eq_refl eq_refl)).
Defined.

Lemma lambda_handler_submits_whole_transcript_sample :
  exists rest,
    snd (lambda_handler isprintable_ascii Sample.cfg
           (Sample.world Cases.padded Sample.always_running)
           Sample.spare_depth Cases.plain_event []) =
    [] ++ [S3GetObject (VStr (py "uploads")) (py "talks/intro.txt");
           HttpPost Cases.run_url Sample.headers
             (Cases.payload_of (py "  hello world " ++ NEWLINE))] ++ rest.
Proof.
  exact (lambda_handler_submits_whole_transcript isprintable_ascii Sample.cfg
           (Sample.world Cases.padded Sample.always_running) Sample.spare_depth
           Cases.plain_event []
           (VStr (py "uploads")) (py "talks/intro.txt") Cases.padded
           (proj1 (Nat.leb_le (json_depth Cases.plain_event) (S Sample.spare_depth)) eq_refl)
           eq_refl eq_refl eq_refl eq_refl eq_refl).
Defined.

Lemma lambda_handler_missing_api_key_sample :
  lambda_handler isprintable_ascii Cases.cfg_without_key
    (Sample.world (py "hello world") Sample.always_running)
    Sample.spare_depth Cases.plain_event [] =
  (Returned
     (VDict [(py "statusCode", VInt 500);
             (py "body",
              VStr (py "{" ++ quoted (py "message") ++ py ": " ++
                    quoted (py "Error processing file") ++ py ", " ++
                    quoted (py "error") ++ py ": " ++
                    quoted (py "Runpod API key is not set.") ++ py "}"))]),
   [S3GetObject (VStr (py "uploads")) (py "talks/intro.txt")]).
Proof.
  exact (lambda_handler_missing_api_key isprintable_ascii Cases.cfg_without_key
           (Sample.world (py "hello world") Sample.always_running) Sample.spare_depth
           Cases.plain_event []
           (VStr (py "uploads")) (py "talks/intro.txt") (py "hello world")
           (proj1 (Nat.leb_le (json_depth Cases.plain_event) (S Sample.spare_depth)) eq_refl)
           eq_refl eq_refl eq_refl eq_refl).
Defined.

Lemma lambda_handler_without_records_sample :
  lambda_handler isprintable_ascii Sample.cfg
    (Sample.world (py "hello world") Sample.always_running)
    Sample.spare_depth (VDict []) [] =
  (Returned
     (VDict [(py "statusCode", VInt 500);
             (py "body",
              VStr (py "{" ++ quoted (py "message") ++ py ": " ++
                    quoted (py "Error processing file") ++ py ", " ++
                    quoted (py "error") ++ py ": " ++
                    quoted (py "Invalid S3 event format: 'Records'") ++ py "}"))]),
   []).
Proof.
  exact (proj1 (lambda_handler_without_records isprintable_ascii Sample.cfg
                  (Sample.world (py "hello world") Sample.always_running)
                  Sample.spare_depth [] []
                  (proj1 (Nat.leb_le (json_depth (VDict [])) (S Sample.spare_depth))
                     eq_refl))
           eq_refl).
Defined.

Lemma lambda_handler_ok_means_stored_sample :
  exists key summary,
    In (S3PutObject (py "summaries") (generate_output_key key) summary (py "text/plain"))
      (snd (lambda_handler isprintable_ascii Sample.cfg
              (Sample.world (py "hello world") (Sample.completes_with (VStr (py "Hello!"))))
              Sample.spare_depth Cases.plain_event [])).
Proof.
  destruct (lambda_handler_ok_means_stored isprintable_ascii Sample.cfg
              (Sample.world (py "hello world") (Sample.completes_with (VStr (py "Hello!"))))
              Sample.spare_depth Cases.plain_event []
              (success_envelope isprintable_ascii Sample.cfg (VStr (py "uploads"))
                 (py "talks/intro.txt") (py "summaries/talks/intro_summary.txt"))
              (snd (lambda_handler isprintable_ascii Sample.cfg
                      (Sample.world (py "hello world")
                         (Sample.completes_with (VStr (py "Hello!"))))
                      Sample.spare_depth Cases.plain_event []))
              eq_refl eq_refl)
    as (bucket & key & text & job_id & i & summary & _ & _ & _ & Htrace).
  exists key, summary. rewrite Htrace.
  apply in_or_app. right. apply in_or_app. right. apply in_or_app. right.
  right. now left.
Defined.

Lemma lambda_handler_non_text_summary_sample :
  exists e tr,
    lambda_handler isprintable_ascii Sample.cfg
      (Sample.world (py "hello world")
         (Sample.completes_with (VDict [(py "text", VInt 5)])))
      Sample.spare_depth Cases.plain_event [] = (Returned (error_envelope e), tr) /\
    count_s3_puts tr = 0%nat.
Proof.
  destruct (lambda_handler_non_text_summary isprintable_ascii Sample.cfg
              (Sample.world (py "hello world")
                 (Sample.completes_with (VDict [(py "text", VInt 5)])))
              Sample.spare_depth
              Cases.plain_event [] (VStr (py "uploads")) (py "talks/intro.txt")
              (py "hello world")
              [S3GetObject (VStr (py "uploads")) (py "talks/intro.txt")]
              Sample.job_id
              [S3GetObject (VStr (py "uploads")) (py "talks/intro.txt");
               HttpPost Cases.run_url Sample.headers
                 (Cases.payload_of (py "hello world"))]
              (VInt 5)
              [S3GetObject (VStr (py "uploads")) (py "talks/intro.txt");
               HttpPost Cases.run_url Sample.headers
                 (Cases.payload_of (py "hello world"));
               HttpGet Sample.url Sample.headers])
    as (e & Hrun & _).
  - apply Nat.leb_le. reflexivity.
  - split; [reflexivity |]. split; [reflexivity |]. vm_compute. discriminate.
  - reflexivity.
  - reflexivity.
  - discriminate.
  - exists e. eexists. split; [exact Hrun | reflexivity].
Defined.
